(** * action-gh-release: the release reconciler and the asset uploader

    A shallow embedding of [src/github.ts]: the [release] function, which
    finds, creates or updates a GitHub release, and the [upload] function,
    which attaches one file to it.  Both talk to a remote service; the
    embedding runs them in a state-and-exception monad whose state is the
    service's state together with the chronological list of requests issued
    so far, so that "how many requests, in which order" is a statement about
    a list. *)

From Stdlib Require Import ZArith List String Ascii Bool Lia.
From Stdlib Require Import DecimalString.
From Equations Require Import Equations.
Import ListNotations.
Local Open Scope string_scope.
Local Open Scope Z_scope.

Set Implicit Arguments.

(** ** JavaScript values the code inspects *)

(** A decoded JSON document ([resp.json()], [error.response.data]).  A
    number is held as the text JavaScript prints for it ([String(n)]: "43",
    "0.5", "1e+21"), which is all the code does with one. *)
#[local] Unset Elimination Schemes.
Inductive Json : Type :=
| JNull
| JBool (b : bool)
| JNumber (printed : string)
| JString (s : string)
| JArray (items : list Json)
| JObject (fields : list (string * Json)).
#[local] Set Elimination Schemes.

(** A JavaScript value that may be [undefined]. *)
Definition JsValue := option Json.

(** The value a rejected request carries.  The code reads [status] and
    [response.data.errors] from it; a request that never got an HTTP
    response (a transport failure) has no [response]. *)
Record ErrorResponse := { data : JsValue }.
Record RequestError := {
  status : option Z;
  response : option ErrorResponse
}.

(** What a JavaScript [throw] (or a rejected promise) carries. *)
Inductive Thrown : Type :=
| Rejected (e : RequestError)   (* a rejection of the release service *)
| Error (message : string)      (* [new Error(message)] *)
| TypeError (message : string)  (* property access on undefined or null *)
| SystemError (message : string). (* file system, network or decoding *)

(** [v || d] for an optional string: the empty string is falsy. *)
Definition or_string (v : option string) (d : string) : string :=
  match v with
  | Some s => if (s =? "")%string then d else s
  | None => d
  end.

(** Truthiness of [boolean | undefined]. *)
Definition truthy_bool (v : option bool) : bool :=
  match v with
  | Some b => b
  | None => false
  end.

(** [o.key] on a possibly undefined value: undefined and null throw, an
    object answers with the first binding of the key, anything else has no
    such property. *)
Fixpoint lookup_field (key : string) (fields : list (string * Json)) : JsValue :=
  match fields with
  | [] => None
  | (k, v) :: rest => if (k =? key)%string then Some v else lookup_field key rest
  end.

Definition property (v : JsValue) (key : string) : Thrown + JsValue :=
  match v with
  | None => inl (TypeError ("Cannot read properties of undefined (reading '" ++ key ++ "')"))
  | Some JNull => inl (TypeError ("Cannot read properties of null (reading '" ++ key ++ "')"))
  | Some (JObject fields) => inr (lookup_field key fields)
  | Some _ => inr None
  end.

(** Decimal rendering of an integer, as [`${n}`] prints it. *)
Definition show_number (n : Z) : string :=
  NilZero.string_of_int (Z.to_int n).

(** [s.split(sep)] for a one-character separator. *)
Fixpoint split (sep : ascii) (s : string) : list string :=
  match s with
  | EmptyString => [EmptyString]
  | String c rest =>
      if Ascii.eqb c sep then EmptyString :: split sep rest
      else match split sep rest with
           | [] => [String c EmptyString]
           | piece :: pieces => String c piece :: pieces
           end
  end.

(** [s.replace(pattern, replacement)] with a string pattern: only the first
    occurrence is replaced. *)
Definition replace (pattern replacement s : string) : string :=
  match index 0 pattern s with
  | None => s
  | Some i =>
      substring 0 i s ++ replacement
        ++ substring (i + length pattern) (length s - (i + length pattern)) s
  end.

(** ** Data model *)

(** An asset already attached to a release: [{ id: number; name: string }]. *)
Record Asset := {
  asset_id : Z;
  asset_name : string
}.

(** [interface Release]. [name] and [body] are nullable. *)
Record Release := {
  id : Z;
  upload_url : string;
  html_url : string;
  tag_name : string;
  name : option string;
  body : option string;
  target_commitish : string;
  draft : bool;
  prerelease : bool;
  assets : list Asset
}.

(** [interface ReleaseAsset]: a local file ready for upload. *)
Record ReleaseAsset := {
  ra_name : string;
  ra_mime : string;
  ra_size : Z;
  ra_data : list Byte.byte
}.

(** Modelled from the spec: the declaration of [Config] lives in [./util],
    which is not among the sources.  The fields are the ones [release] and
    [upload] read; the flags are [boolean | undefined] (section 3: "tri-state:
    unset/true/false") and the optional texts are [string | undefined]. *)
Record Config := {
  github_token : string;
  github_ref : string;
  github_repository : string;
  github_sha : string;
  input_name : option string;
  input_tag_name : option string;
  input_draft : option bool;
  input_prerelease : option bool;
  input_target_commitish : option string;
  input_discussion_category_name : option string;
  input_generate_release_notes : option bool;
  input_append_body : option bool;
  input_overwrite_files : option bool;
  input_update_tag : option bool
}.

(** ** Requests

    One record per parameter object of [interface Releaser].  [owner] and
    [repo] come from destructuring [github_repository.split("/")], so either
    may be undefined. *)
Record RepoParams := {
  rp_owner : option string;
  rp_repo : option string
}.

Record TagParams := {
  tp_owner : option string;
  tp_repo : option string;
  tp_tag : string
}.

Record CreateParams := {
  cp_owner : option string;
  cp_repo : option string;
  cp_tag_name : string;
  cp_name : string;
  cp_body : option string;
  cp_draft : option bool;
  cp_prerelease : option bool;
  cp_target_commitish : option string;
  cp_discussion_category_name : option string;
  cp_generate_release_notes : option bool
}.

Record UpdateParams := {
  up_owner : option string;
  up_repo : option string;
  up_release_id : Z;
  up_tag_name : string;
  up_target_commitish : string;
  up_name : string;
  up_body : option string;
  up_draft : option bool;
  up_prerelease : option bool;
  up_discussion_category_name : option string;
  up_generate_release_notes : option bool
}.

Record CreateRefParams := {
  cr_owner : option string;
  cr_repo : option string;
  cr_ref : string;
  cr_sha : string
}.

Record DeleteRefParams := {
  dr_owner : option string;
  dr_repo : option string;
  dr_ref : string
}.

Record DeleteAssetParams := {
  da_asset_id : Z;
  da_owner : option string;
  da_repo : option string
}.

(** The [URL] object [upload] builds, in its parts (the [href] is their
    serialisation): what precedes the query, the query parameters in order,
    and the fragment; and the [fetch] request [upload] sends. *)
Record Url := {
  before_query : string;
  searchParams : list (string * string);
  fragment : string
}.

Record UploadRequest := {
  rq_endpoint : Url;
  rq_content_length : string;
  rq_content_type : string;
  rq_authorization : string;
  rq_method : string;
  rq_body : list Byte.byte
}.

(** What [fetch] resolves to: the status, and what [resp.json()] gives. *)
Record FetchResponse := {
  resp_status : Z;
  resp_json : Thrown + Json
}.

(** Everything the code asks of the outside world, in the order asked.
    [ListPage] is one page request of the [allReleases] iterator; [Sleep] is
    the timer of [sleep(ms)]. *)
Inductive Call : Type :=
| ListPage (p : RepoParams)
| GetReleaseByTag (p : TagParams)
| CreateRelease (p : CreateParams)
| UpdateRelease (p : UpdateParams)
| DeleteRef (p : DeleteRefParams)
| CreateRef (p : CreateRefParams)
| Sleep (ms : Z)
| DeleteReleaseAsset (p : DeleteAssetParams)
| Fetch (rq : UploadRequest).

(** The pages an [allReleases] iterator yields: finitely many, the last
    request possibly rejected. *)
Inductive Pages : Type :=
| NoMorePages
| PageFails (e : RequestError)
| Page (page_data : list Release) (rest : Pages).

(** ** The monad: service state, request log, exceptions *)

Section Monad.

Variable W : Type.

Record State := {
  world : W;
  calls : list Call
}.

Inductive Outcome (A : Type) : Type :=
| Return (a : A)
| Throw (t : Thrown).
Arguments Throw {A} t.

Definition M (A : Type) : Type := State -> Outcome A * State.

Definition ret {A} (a : A) : M A := fun st => (Return a, st).

Definition throw {A} (t : Thrown) : M A := fun st => (Throw t, st).

Definition bind {A B} (m : M A) (k : A -> M B) : M B :=
  fun st =>
    match m st with
    | (Return a, st') => k a st'
    | (Throw t, st') => (Throw t, st')
    end.

(** [try { m } catch (e) { handler(e) }] *)
Definition try_catch {A} (m : M A) (handler : Thrown -> M A) : M A :=
  fun st =>
    match m st with
    | (Return a, st') => (Return a, st')
    | (Throw t, st') => handler t st'
    end.

(** Lift a pure computation that may throw. *)
Definition lift {A} (r : Thrown + A) : M A :=
  match r with
  | inl t => throw t
  | inr a => ret a
  end.

(** [await] of one request: it is logged, the service answers and moves to
    its next state; a rejection is thrown. *)
Definition request {E A} (inj : E -> Thrown) (c : Call)
    (f : W -> (E + A) * W) : M A :=
  fun st =>
    let (r, w') := f (world st) in
    let st' := {| world := w'; calls := calls st ++ [c] |} in
    match r with
    | inl e => (Throw (inj e), st')
    | inr a => (Return a, st')
    end.

End Monad.

Arguments Throw {A} t.
Arguments Return {A} a.
Arguments ret {W A} a.
Arguments throw {W A} t.
Arguments bind {W A B} m k.
Arguments try_catch {W A} m handler.
Arguments lift {W A} r.
Arguments request {W E A} inj c f.

Declare Scope monad_scope.
Delimit Scope monad_scope with monad.
Notation "x <- m ;; k" := (bind m (fun x => k))
  (at level 100, m at next level, right associativity) : monad_scope.
Notation "m ;; k" := (bind m (fun _ => k))
  (at level 100, right associativity) : monad_scope.
Local Open Scope monad_scope.

(** ** Shared by [release] and [upload] *)

(** [const [owner, repo] = config.github_repository.split("/")] *)
Definition owner_of (config : Config) : option string :=
  nth_error (split "/" (github_repository config)) 0.

Definition repo_of (config : Config) : option string :=
  nth_error (split "/" (github_repository config)) 1.

(** ** The release reconciler: [release] *)

Section Reconciler.

Variable W : Type.

(** [interface Releaser].  Every operation is a request that the service
    answers in its current state, moving to the next one.  [allReleases]
    creates the page iterator; its pages are requested one at a time by the
    loop that consumes it. *)
Record Releaser := {
  getReleaseByTag : TagParams -> W -> (RequestError + Release) * W;
  createRelease : CreateParams -> W -> (RequestError + Release) * W;
  updateRelease : UpdateParams -> W -> (RequestError + Release) * W;
  allReleases : RepoParams -> W -> Pages;
  createRef : CreateRefParams -> W -> (RequestError + unit) * W;
  deleteRef : DeleteRefParams -> W -> (RequestError + unit) * W
}.

(** [isTag] and [releaseBody] are imported from [./util], which is not
    among the sources; [release] is parametric in them.  [releaseBody]
    returns [string | undefined]. *)
Variable isTag : string -> bool.
Variable releaseBody : Config -> option string.

(** Lines 226-230: the tag to reconcile. *)
Definition tag_of (config : Config) : string :=
  or_string (input_tag_name config)
    (if isTag (github_ref config)
     then replace "refs/tags/" "" (github_ref config)
     else "").

(** [sleep(ms)]: a timer; the service state is as it was. *)
Definition sleep (ms : Z) : M W unit :=
  request (fun e : RequestError => Rejected e) (Sleep ms) (fun w => (inr tt, w)).

(** Lines 238-246: the [for await] loop over the pages of [allReleases].
    Each iteration requests one page; the first release of the page whose
    [tag_name] is the tag ends the loop (and [release]) with that release;
    [None] stands for leaving the loop at its end. *)
Fixpoint scan_pages (p : RepoParams) (tag : string) (pages : Pages)
    : M W (option Release) :=
  match pages with
  | NoMorePages => ret None
  | PageFails e =>
      request Rejected (ListPage p) (fun w => (inl e, w))
  | Page page_data rest =>
      response_data <-
        request Rejected (ListPage p) (fun w => (@inr RequestError _ page_data, w)) ;;
      match find (fun release => (tag_name release =? tag)%string) response_data with
      | Some release => ret (Some release)
      | None => scan_pages p tag rest
      end
  end.

(** Lines 235-247. *)
Definition list_params (config : Config) : RepoParams :=
  {| rp_owner := owner_of config; rp_repo := repo_of config |}.

Definition find_draft (config : Config) (releaser : Releaser)
    : M W (option Release) :=
  if truthy_bool (input_draft config) then
    let p := list_params config in
    fun st => scan_pages p (tag_of config) (allReleases releaser p (world st)) st
  else ret None.

(** [e.status === n]: only a caught request error has a [status]. *)
Definition status_is (n : Z) (e : Thrown) : bool :=
  match e with
  | Rejected {| status := Some s |} => s =? n
  | _ => false
  end.

(** Lines 249-268: the lookup by tag.  Only a rejection whose [status] is
    the number 404 is swallowed, leaving [existingRelease] null. *)
Definition lookup_params (config : Config) : TagParams :=
  {| tp_owner := owner_of config; tp_repo := repo_of config;
     tp_tag := tag_of config |}.

Definition lookup (config : Config) (releaser : Releaser)
    : M W (option Release) :=
  let p := lookup_params config in
  try_catch
    (existingRelease <-
       request Rejected (GetReleaseByTag p) (getReleaseByTag releaser p) ;;
     ret (Some existingRelease))
    (fun e =>
       if status_is 404 e then ret None else throw e).

(** Lines 270-295: the argument of [createRelease]. *)
Definition create_params (config : Config) : CreateParams :=
  let tag := tag_of config in
  {| cp_owner := owner_of config;
     cp_repo := repo_of config;
     cp_tag_name := tag;
     cp_name := or_string (input_name config) tag;
     cp_body := releaseBody config;
     cp_draft := input_draft config;
     cp_prerelease := input_prerelease config;
     cp_target_commitish := input_target_commitish config;
     cp_discussion_category_name := input_discussion_category_name config;
     cp_generate_release_notes := input_generate_release_notes config |}.

(** Lines 299-305: the retry message interpolates [error.status] and
    [JSON.stringify(error.response.data.errors)].  Console output is not
    part of the model, but evaluating the message is: the property chain
    throws when the caught value has no [response], or a [response] whose
    [data] is undefined or null. *)
Definition retry_message_errors (error : Thrown) : Thrown + JsValue :=
  match error with
  | Rejected {| response := Some r |} => property (data r) "errors"
  | _ => inl (TypeError "Cannot read properties of undefined (reading 'data')")
  end.

(** Lines 309-361 and 385-395: the merged fields, the argument of
    [updateRelease]. *)
Definition update_params (config : Config) (existingRelease : Release)
    : UpdateParams :=
  let tag := tag_of config in
  let release_id := id existingRelease in
  let target_commitish :=
    match input_target_commitish config with
    | Some c =>
        if negb (c =? "")%string
           && negb (c =? target_commitish existingRelease)%string
        then c else target_commitish existingRelease
    | None => target_commitish existingRelease
    end in
  (* lines 323-337 repeat the computation into block-scoped variables that
     nothing reads *)
  let tag_name := tag in
  let name := or_string (input_name config) (or_string (name existingRelease) tag) in
  let workflowBody := or_string (releaseBody config) "" in
  let existingReleaseBody := or_string (body existingRelease) "" in
  let body :=
    if truthy_bool (input_append_body config)
       && negb (workflowBody =? "")%string
       && negb (existingReleaseBody =? "")%string
    then existingReleaseBody ++ String "010" "" ++ workflowBody
    else or_string (Some workflowBody) existingReleaseBody in
  let draft :=
    match input_draft config with
    | Some d => Some d
    | None => Some (draft existingRelease)
    end in
  let prerelease :=
    match input_prerelease config with
    | Some p => Some p
    | None => Some (prerelease existingRelease)
    end in
  {| up_owner := owner_of config;
     up_repo := repo_of config;
     up_release_id := release_id;
     up_tag_name := tag_name;
     up_target_commitish := target_commitish;
     up_name := name;
     up_body := Some body;
     up_draft := draft;
     up_prerelease := prerelease;
     up_discussion_category_name := input_discussion_category_name config;
     up_generate_release_notes := input_generate_release_notes config |}.

(** Lines 362-382: the arguments of [deleteRef] and [createRef], and the
    rewriting of the tag. *)
Definition delete_ref_params (config : Config) (existingRelease : Release)
    : DeleteRefParams :=
  {| dr_owner := owner_of config; dr_repo := repo_of config;
     dr_ref := "tags/" ++ tag_name existingRelease |}.

Definition create_ref_params (config : Config) (existingRelease : Release)
    : CreateRefParams :=
  {| cr_owner := owner_of config; cr_repo := repo_of config;
     cr_ref := "refs/tags/" ++ tag_name existingRelease;
     cr_sha := github_sha config |}.

Definition update_tag (config : Config) (releaser : Releaser)
    (existingRelease : Release) : M W unit :=
  if truthy_bool (input_update_tag config) then
    let dp := delete_ref_params config existingRelease in
    let cp := create_ref_params config existingRelease in
    request Rejected (DeleteRef dp) (deleteRef releaser dp) ;;
    request Rejected (CreateRef cp) (createRef releaser cp) ;;
    sleep 2000
  else ret tt.

(** Lines 309-398: the update of [existingRelease]. *)
Definition update (config : Config) (releaser : Releaser)
    (existingRelease : Release) : M W Release :=
  let p := update_params config existingRelease in
  update_tag config releaser existingRelease ;;
  request Rejected (UpdateRelease p) (updateRelease releaser p).

(** Lines 215-399.  [maxRetries] is a JavaScript number; the recursion
    stops at the first value that is not positive. *)
Equations? release (config : Config) (releaser : Releaser) (maxRetries : Z)
    : M W Release by wf (Z.to_nat maxRetries) lt :=
release config releaser maxRetries with Z_le_gt_dec maxRetries 0 := {
  | left _ => throw (Error "Too many retries.")
  | right _ =>
      found <- find_draft config releaser ;;
      match found with
      | Some release => ret release
      | None =>
          existingRelease <- lookup config releaser ;;
          match existingRelease with
          | None =>
              let p := create_params config in
              try_catch
                (request Rejected (CreateRelease p) (createRelease releaser p))
                (fun error =>
                   lift (retry_message_errors error) ;;
                   release config releaser (maxRetries - 1))
          | Some existingRelease => update config releaser existingRelease
          end
      end }.
Proof. lia. Qed.

End Reconciler.

(** ** The asset uploader: [upload] *)

(** [`${v}`] for a decoded JSON value. *)
Fixpoint to_String (j : Json) : string :=
  match j with
  | JNull => "null"
  | JBool b => if b then "true" else "false"
  | JNumber printed => printed
  | JString s => s
  | JArray items =>
      let element x := match x with JNull => "" | _ => to_String x end in
      (fix join (l : list Json) : string :=
         match l with
         | [] => ""
         | [x] => element x
         | x :: rest => element x ++ "," ++ join rest
         end) items
  | JObject _ => "[object Object]"
  end.

Definition interpolate (v : JsValue) : string :=
  match v with
  | None => "undefined"
  | Some j => to_String j
  end.

(** Line 175: [({ name: currentName }) => currentName == name] *)
Definition same_name (a : ReleaseAsset) (current : Asset) : bool :=
  (asset_name current =? ra_name a)%string.

(** [endpoint.searchParams.append(key, value)]: the pair becomes the last
    parameter of the query; the rest of the URL is as it was. *)
Definition searchParams_append (endpoint : Url) (key value : string) : Url :=
  {| before_query := before_query endpoint;
     searchParams := searchParams endpoint ++ [(key, value)];
     fragment := fragment endpoint |}.

Section Uploader.

Variable W : Type.

(** The part of the Octokit client [upload] uses:
    [github.rest.repos.deleteReleaseAsset]. *)
Record GitHub := {
  deleteReleaseAsset : DeleteAssetParams -> W -> (RequestError + unit) * W
}.

(** Node and library functions [upload] and [asset] call: [path.basename],
    [mime.getType], [fs.statSync(path).size], [fs.readFileSync], the [URL]
    constructor, [fetch] and [JSON.stringify] (of a defined value). *)
Variable basename : string -> string.
Variable getType : string -> option string.
Variable statSync_size : string -> Thrown + Z.
Variable readFileSync : string -> Thrown + list Byte.byte.
Variable new_URL : string -> Thrown + Url.
Variable fetch : UploadRequest -> W -> (Thrown + FetchResponse) * W.
Variable JSON_stringify : Json -> string.

(** Lines 161-163. *)
Definition mimeOrDefault (path : string) : string :=
  or_string (getType path) "application/octet-stream".

(** Lines 152-159. *)
Definition asset (path : string) : Thrown + ReleaseAsset :=
  match statSync_size path with
  | inl t => inl t
  | inr size =>
      match readFileSync path with
      | inl t => inl t
      | inr data =>
          inr {| ra_name := basename path;
                 ra_mime := mimeOrDefault path;
                 ra_size := size;
                 ra_data := data |}
      end
  end.

(** Lines 195-203: the argument of [fetch]. *)
Definition upload_request (config : Config) (endpoint : Url) (a : ReleaseAsset)
    : UploadRequest :=
  {| rq_endpoint := endpoint;
     rq_content_length := show_number (ra_size a);
     rq_content_type := ra_mime a;
     rq_authorization := "token " ++ github_token config;
     rq_method := "POST";
     rq_body := ra_data a |}.

(** Lines 206-210: the message of the error thrown on a status other than
    201; [JSON.stringify(undefined)] is [undefined]. *)
Definition failure_message (name : string) (status : Z) (message errors : JsValue)
    : string :=
  "Failed to upload release asset " ++ name
  ++ ". received status code " ++ show_number status
  ++ String "010" "" ++ interpolate message
  ++ String "010" ""
  ++ match errors with
     | None => "undefined"
     | Some j => JSON_stringify j
     end.

(** Lines 192-212: the upload request and the reading of its response. *)
Definition post_asset (config : Config) (url : string) (a : ReleaseAsset)
    : M W Json :=
  endpoint <- lift (new_URL url) ;;
  let endpoint := searchParams_append endpoint "name" (ra_name a) in
  let rq := upload_request config endpoint a in
  resp <- request (fun t : Thrown => t) (Fetch rq) (fetch rq) ;;
  json <- lift (resp_json resp) ;;
  if negb (resp_status resp =? 201) then
    message <- lift (property (Some json) "message") ;;
    errors <- lift (property (Some json) "errors") ;;
    throw (Error (failure_message (ra_name a) (resp_status resp) message errors))
  else ret json.

(** Lines 185-189: the argument of [deleteReleaseAsset];
    [currentAsset.id || 1] is 1 when the id is 0. *)
Definition delete_asset_params (config : Config) (currentAsset : Asset)
    : DeleteAssetParams :=
  {| da_asset_id := if asset_id currentAsset =? 0 then 1 else asset_id currentAsset;
     da_owner := owner_of config;
     da_repo := repo_of config |}.

(** Lines 165-213.  The result is the decoded response, or [null] when the
    upload is skipped. *)
Definition upload (config : Config) (github : GitHub) (url path : string)
    (currentAssets : list Asset) : M W Json :=
  a <- lift (asset path) ;;
  let currentAsset := find (same_name a) currentAssets in
  match currentAsset with
  | Some currentAsset =>
      match input_overwrite_files config with
      | Some false => ret JNull
      | _ =>
          let p := delete_asset_params config currentAsset in
          request Rejected (DeleteReleaseAsset p) (deleteReleaseAsset github p) ;;
          post_asset config url a
      end
  | None => post_asset config url a
  end.

End Uploader.

(** * Vocabulary of the statements *)

Section Observations.

Variable W : Type.

(** A run that starts with an empty log. *)
Definition start (w : W) : State W := {| world := w; calls := [] |}.

(** The state after [issued] was sent and the service moved to [w]. *)
Definition after (st : State W) (w : W) (issued : list Call) : State W :=
  {| world := w; calls := calls st ++ issued |}.

(** The outcome and the final state of a run. *)
Definition outcome {A} (r : Outcome A * State W) : Outcome A := fst r.
Definition final {A} (r : Outcome A * State W) : State W := snd r.

(** A computation never rewrites the log: it only appends to it. *)
Definition extends {A} (m : M W A) : Prop :=
  forall st, exists issued : list Call, calls (final (m st)) = (calls st ++ issued)%list.

(** [upload] gets as far as sending the file [a], from the state [st1]:
    either no attached asset has its name, or one has, overwriting is not
    switched off and the deletion was accepted. *)
Definition sends_file (github : GitHub W) (currentAssets : list Asset)
    (config : Config) (a : ReleaseAsset) (st st1 : State W) : Prop :=
  match find (same_name a) currentAssets with
  | None => st1 = st
  | Some current =>
      input_overwrite_files config <> Some false
      /\ exists w1,
           deleteReleaseAsset github (delete_asset_params config current) (world st)
             = (inr tt, w1)
           /\ st1 = after st w1 [DeleteReleaseAsset (delete_asset_params config current)]
  end.

(** Every request a computation appends to the log satisfies [P]. *)
Definition issues {A} (P : Call -> Prop) (m : M W A) : Prop :=
  forall st, exists issued : list Call,
    calls (final (m st)) = (calls st ++ issued)%list /\ Forall P issued.

End Observations.

Arguments start {W} w.
Arguments after {W} st w issued.
Arguments outcome {W A} r.
Arguments final {W A} r.
Arguments extends {W A} m.
Arguments sends_file {W} github currentAssets config a st st1.
Arguments issues {W A} P m.

(** How many creation requests a log holds. *)
Definition is_creation (c : Call) : bool :=
  match c with
  | CreateRelease _ => true
  | _ => false
  end.

Definition creations (log : list Call) : nat :=
  List.length (filter is_creation log).

(** What the update path may issue: the two ref requests, the timer, and
    one update request carrying the merged fields. *)
Definition update_request (expected : UpdateParams) (c : Call) : Prop :=
  match c with
  | DeleteRef _ | CreateRef _ | Sleep _ => True
  | UpdateRelease p => p = expected
  | _ => False
  end.

(** The text of a nullable body: nothing when it is absent. *)
Definition text (v : option string) : string :=
  match v with
  | Some s => s
  | None => ""
  end.

Definition nonempty (s : string) : bool := negb (s =? "")%string.

(** The request that sends the file [a] to [endpoint]. *)
Definition sent (config : Config) (a : ReleaseAsset) (endpoint : Url) : UploadRequest :=
  upload_request config (searchParams_append endpoint "name" (ra_name a)) a.

(** The requests [release] may issue for a configuration: the page
    requests only with the draft flag, the lookup and the creation with the
    arguments computed from the configuration, the ref requests and the
    timer only with the update-tag flag, an update with the fields merged
    from some release; never an asset deletion or an upload. *)
Definition release_request (isTag : string -> bool)
    (releaseBody : Config -> option string) (config : Config) (c : Call) : Prop :=
  match c with
  | ListPage p =>
      truthy_bool (input_draft config) = true /\ p = list_params config
  | GetReleaseByTag p => p = lookup_params isTag config
  | CreateRelease p => p = create_params isTag releaseBody config
  | UpdateRelease p =>
      exists existingRelease, p = update_params isTag releaseBody config existingRelease
  | DeleteRef p =>
      truthy_bool (input_update_tag config) = true
      /\ exists existingRelease, p = delete_ref_params config existingRelease
  | CreateRef p =>
      truthy_bool (input_update_tag config) = true
      /\ exists existingRelease, p = create_ref_params config existingRelease
  | Sleep ms => truthy_bool (input_update_tag config) = true /\ ms = 2000
  | DeleteReleaseAsset _ | Fetch _ => False
  end.

(** A request that is not a creation. *)
Definition quiet (c : Call) : Prop := is_creation c = false.


(** [release.tag_name === tag] *)
Definition has_tag (tag : string) (release : Release) : bool :=
  (tag_name release =? tag)%string.

(** The pages of a listing up to its end or to the first rejected page
    request, and that rejection if there is one. *)
Fixpoint page_list (pages : Pages) : list (list Release) :=
  match pages with
  | NoMorePages | PageFails _ => []
  | Page page_data rest => page_data :: page_list rest
  end.

Fixpoint failure (pages : Pages) : option RequestError :=
  match pages with
  | NoMorePages => None
  | PageFails e => Some e
  | Page _ rest => failure rest
  end.

(** The first release with the tag, in page order. *)
Definition first_match (tag : string) (pages : Pages) : option Release :=
  find (has_tag tag) (List.concat (page_list pages)).

(** How many page requests it takes to reach that release (or the end of
    the listing, or the rejected request). *)
Fixpoint pages_read (tag : string) (pages : Pages) : nat :=
  match pages with
  | NoMorePages => 0
  | PageFails _ => 1
  | Page page_data rest =>
      match find (has_tag tag) page_data with
      | Some _ => 1
      | None => S (pages_read tag rest)
      end
  end.

(** * Concrete inputs

    A configuration triggered by the tag ref [refs/tags/v1.0] of [octo/app],
    and scripted services over a one-state world. *)

Module Examples.

Definition isTag (ref : string) : bool := prefix "refs/tags/" ref.

Definition releaseBody (text : option string) (_ : Config) : option string := text.

Definition config : Config :=
  {| github_token := "secret";
     github_ref := "refs/tags/v1.0";
     github_repository := "octo/app";
     github_sha := "abc123";
     input_name := None;
     input_tag_name := None;
     input_draft := None;
     input_prerelease := None;
     input_target_commitish := None;
     input_discussion_category_name := None;
     input_generate_release_notes := None;
     input_append_body := None;
     input_overwrite_files := None;
     input_update_tag := None |}.

Definition with_draft (v : option bool) (c : Config) : Config :=
  {| github_token := github_token c;
     github_ref := github_ref c;
     github_repository := github_repository c;
     github_sha := github_sha c;
     input_name := input_name c;
     input_tag_name := input_tag_name c;
     input_draft := v;
     input_prerelease := input_prerelease c;
     input_target_commitish := input_target_commitish c;
     input_discussion_category_name := input_discussion_category_name c;
     input_generate_release_notes := input_generate_release_notes c;
     input_append_body := input_append_body c;
     input_overwrite_files := input_overwrite_files c;
     input_update_tag := input_update_tag c |}.

Definition with_append_body (v : option bool) (c : Config) : Config :=
  {| github_token := github_token c;
     github_ref := github_ref c;
     github_repository := github_repository c;
     github_sha := github_sha c;
     input_name := input_name c;
     input_tag_name := input_tag_name c;
     input_draft := input_draft c;
     input_prerelease := input_prerelease c;
     input_target_commitish := input_target_commitish c;
     input_discussion_category_name := input_discussion_category_name c;
     input_generate_release_notes := input_generate_release_notes c;
     input_append_body := v;
     input_overwrite_files := input_overwrite_files c;
     input_update_tag := input_update_tag c |}.

Definition with_update_tag (v : option bool) (c : Config) : Config :=
  {| github_token := github_token c;
     github_ref := github_ref c;
     github_repository := github_repository c;
     github_sha := github_sha c;
     input_name := input_name c;
     input_tag_name := input_tag_name c;
     input_draft := input_draft c;
     input_prerelease := input_prerelease c;
     input_target_commitish := input_target_commitish c;
     input_discussion_category_name := input_discussion_category_name c;
     input_generate_release_notes := input_generate_release_notes c;
     input_append_body := input_append_body c;
     input_overwrite_files := input_overwrite_files c;
     input_update_tag := v |}.

Definition with_overwrite_files (v : option bool) (c : Config) : Config :=
  {| github_token := github_token c;
     github_ref := github_ref c;
     github_repository := github_repository c;
     github_sha := github_sha c;
     input_name := input_name c;
     input_tag_name := input_tag_name c;
     input_draft := input_draft c;
     input_prerelease := input_prerelease c;
     input_target_commitish := input_target_commitish c;
     input_discussion_category_name := input_discussion_category_name c;
     input_generate_release_notes := input_generate_release_notes c;
     input_append_body := input_append_body c;
     input_overwrite_files := v;
     input_update_tag := input_update_tag c |}.

(** Rejections: a 404 and a 422 with an HTTP response, a 403, and a
    transport failure, which has a status but no response. *)
Definition not_found : RequestError :=
  {| status := Some 404;
     response := Some {| data := Some (JObject [("message", JString "Not Found")]) |} |}.

Definition already_exists : RequestError :=
  {| status := Some 422;
     response :=
       Some {| data := Some (JObject [("message", JString "Validation Failed");
                                      ("errors", JArray [JString "already_exists"])]) |} |}.

Definition forbidden : RequestError :=
  {| status := Some 403;
     response := Some {| data := Some (JObject [("message", JString "Forbidden")]) |} |}.

Definition transport_failure : RequestError :=
  {| status := Some 500; response := None |}.

(** Releases of the repository. *)
Definition published (tag : string) (text : option string) : Release :=
  {| id := 7;
     upload_url := "https://uploads.example/7/assets";
     html_url := "https://example/releases/7";
     tag_name := tag;
     name := Some tag;
     body := text;
     target_commitish := "main";
     draft := false;
     prerelease := true;
     assets := [] |}.

Definition drafted (tag : string) : Release :=
  {| id := 9;
     upload_url := "https://uploads.example/9/assets";
     html_url := "https://example/releases/9";
     tag_name := tag;
     name := None;
     body := None;
     target_commitish := "main";
     draft := true;
     prerelease := true;
     assets := [] |}.

(** Three pages of the release list; the tag v1.0 is first on the second. *)
Definition three_pages : Pages :=
  Page [published "v0.8" None; published "v0.9" None]
    (Page [published "v1.0" (Some "first"); published "v1.0" (Some "second")]
       (Page [published "v1.0" (Some "third")] NoMorePages)).

Definition created (p : CreateParams) : Release :=
  {| id := 8;
     upload_url := "https://uploads.example/8/assets";
     html_url := "https://example/releases/8";
     tag_name := cp_tag_name p;
     name := Some (cp_name p);
     body := cp_body p;
     target_commitish := "main";
     draft := truthy_bool (cp_draft p);
     prerelease := truthy_bool (cp_prerelease p);
     assets := [] |}.

Definition updated (p : UpdateParams) : Release :=
  {| id := up_release_id p;
     upload_url := "https://uploads.example/7/assets";
     html_url := "https://example/releases/7";
     tag_name := up_tag_name p;
     name := Some (up_name p);
     body := up_body p;
     target_commitish := up_target_commitish p;
     draft := truthy_bool (up_draft p);
     prerelease := truthy_bool (up_prerelease p);
     assets := [] |}.

(** A service in one state: the lookup by tag answers [existing] (or a
    rejection), creation answers [creation], the listing is [pages], and
    everything else succeeds. *)
Definition service (existing : RequestError + Release)
    (creation : CreateParams -> RequestError + Release) (pages : Pages)
    : Releaser unit :=
  {| getReleaseByTag := fun _ w => (existing, w);
     createRelease := fun p w => (creation p, w);
     updateRelease := fun p w => (inr (updated p), w);
     allReleases := fun _ _ => pages;
     createRef := fun _ w => (inr tt, w);
     deleteRef := fun _ w => (inr tt, w) |}.

(** A service whose state counts the creation attempts rejected so far: the
    first [failures] attempts are rejected with [e], the next one succeeds;
    the tag is not found by the lookup. *)
Definition flaky (failures : nat) (e : RequestError) : Releaser nat :=
  {| getReleaseByTag := fun _ n => (inl not_found, n);
     createRelease := fun p n =>
       if (n <? failures)%nat then (inl e, S n) else (inr (created p), n);
     updateRelease := fun p n => (inr (updated p), n);
     allReleases := fun _ _ => NoMorePages;
     createRef := fun _ n => (inr tt, n);
     deleteRef := fun _ n => (inr tt, n) |}.

(** The file system holds one file, [dist/app.zip], of three bytes. *)
Definition basename (path : string) : string := last (split "/" path) "".

Definition getType (path : string) : option string :=
  if (basename path =? "app.zip")%string then Some "application/zip" else None.

Definition statSync_size (path : string) : Thrown + Z :=
  if (path =? "dist/app.zip")%string then inr 3
  else inl (SystemError "ENOENT: no such file or directory").

Definition readFileSync (path : string) : Thrown + list Byte.byte :=
  if (path =? "dist/app.zip")%string then inr [Byte.x50; Byte.x4b; Byte.x03]
  else inl (SystemError "ENOENT: no such file or directory").

(** The [URL] constructor on the URLs used below, which have neither a
    query nor a fragment; a text without a scheme is refused. *)
Definition new_URL (url : string) : Thrown + Url :=
  if prefix "https://" url
  then inr {| before_query := url; searchParams := []; fragment := "" |}
  else inl (TypeError "Invalid URL").

(** JSON text of a value whose strings need no escaping. *)
Fixpoint JSON_stringify (j : Json) : string :=
  match j with
  | JNull => "null"
  | JBool b => if b then "true" else "false"
  | JNumber printed => printed
  | JString s => String "034" s ++ String "034" ""
  | JArray items =>
      "[" ++ (fix elements (l : list Json) : string :=
                match l with
                | [] => ""
                | [x] => JSON_stringify x
                | x :: rest => JSON_stringify x ++ "," ++ elements rest
                end) items ++ "]"
  | JObject fields =>
      "{" ++ (fix members (l : list (string * Json)) : string :=
                match l with
                | [] => ""
                | [(k, v)] => String "034" k ++ String "034" ":" ++ JSON_stringify v
                | (k, v) :: rest =>
                    String "034" k ++ String "034" ":" ++ JSON_stringify v ++ ","
                    ++ members rest
                end) fields ++ "}"
  end.

(** The upload endpoint answers every request with [resp]; every deletion
    is accepted. *)
Definition fetch (resp : FetchResponse) (_ : UploadRequest) (w : unit)
    : (Thrown + FetchResponse) * unit :=
  (inr resp, w).

Definition github : GitHub unit :=
  {| deleteReleaseAsset := fun _ w => (inr tt, w) |}.

Definition upload_url : string := "https://uploads.example/7/assets".

Definition app_zip : ReleaseAsset :=
  {| ra_name := "app.zip";
     ra_mime := "application/zip";
     ra_size := 3;
     ra_data := [Byte.x50; Byte.x4b; Byte.x03] |}.

Definition asset_created : FetchResponse :=
  {| resp_status := 201;
     resp_json := inr (JObject [("id", JNumber "43"); ("name", JString "app.zip")]) |}.


(** One upload of [dist/app.zip] against that endpoint, from an empty log. *)
Definition run_upload (resp : FetchResponse) (c : Config) (currentAssets : list Asset) :=
  upload basename getType statSync_size readFileSync new_URL (fetch resp)
    JSON_stringify c github upload_url "dist/app.zip" currentAssets (start tt).

Definition endpoint : Url :=
  {| before_query := upload_url; searchParams := []; fragment := "" |}.

(** A configuration that names the release and its target commit. *)
Definition with_name_and_commit (n c : option string) (cfg : Config) : Config :=
  {| github_token := github_token cfg;
     github_ref := github_ref cfg;
     github_repository := github_repository cfg;
     github_sha := github_sha cfg;
     input_name := n;
     input_tag_name := input_tag_name cfg;
     input_draft := input_draft cfg;
     input_prerelease := input_prerelease cfg;
     input_target_commitish := c;
     input_discussion_category_name := input_discussion_category_name cfg;
     input_generate_release_notes := input_generate_release_notes cfg;
     input_append_body := input_append_body cfg;
     input_overwrite_files := input_overwrite_files cfg;
     input_update_tag := input_update_tag cfg |}.

(** A service in one state that finds [existing] by tag and answers the
    update and the two ref requests as scripted. *)
Definition scripted (existing : Release) (update_answer : RequestError + Release)
    (delete_answer create_answer : RequestError + unit) : Releaser unit :=
  {| getReleaseByTag := fun _ w => (inr existing, w);
     createRelease := fun p w => (inr (created p), w);
     updateRelease := fun _ w => (update_answer, w);
     allReleases := fun _ _ => NoMorePages;
     createRef := fun _ w => (create_answer, w);
     deleteRef := fun _ w => (delete_answer, w) |}.

(** A release list whose second page request is rejected. *)
Definition broken_pages : Pages :=
  Page [published "v0.8" None; published "v0.9" None] (PageFails forbidden).

(** A client that refuses to delete assets, an endpoint that is down, and
    responses whose body is not JSON or is [null]. *)
Definition github_refusing : GitHub unit :=
  {| deleteReleaseAsset := fun _ w => (inl forbidden, w) |}.

Definition fetch_down (_ : UploadRequest) (w : unit)
    : (Thrown + FetchResponse) * unit :=
  (inl (SystemError "ECONNRESET"), w).

Definition asset_garbled : FetchResponse :=
  {| resp_status := 201;
     resp_json := inl (SystemError "Unexpected token < in JSON at position 0") |}.

Definition asset_null : FetchResponse :=
  {| resp_status := 502; resp_json := inr JNull |}.

Definition attached : list Asset :=
  [{| asset_id := 41; asset_name := "notes.txt" |};
   {| asset_id := 42; asset_name := "app.zip" |}].

(** A service that remembers the release it created or updated last. *)
Definition remembering : Releaser (option Release) :=
  {| getReleaseByTag := fun _ w =>
       match w with
       | Some r => (inr r, w)
       | None => (inl not_found, w)
       end;
     createRelease := fun p _ => (inr (created p), Some (created p));
     updateRelease := fun p _ => (inr (updated p), Some (updated p));
     allReleases := fun _ _ => NoMorePages;
     createRef := fun _ w => (inr tt, w);
     deleteRef := fun _ w => (inr tt, w) |}.

End Examples.

(** * Properties of [release] *)

Section ReconcilerFacts.

Variable W : Type.
Variable isTag : string -> bool.
Variable releaseBody : Config -> option string.
Variable config : Config.
Variable releaser : Releaser W.

(** ** The two defining equations of [release] *)

Lemma release_stop (maxRetries : Z) :
  maxRetries <= 0 ->
  release isTag releaseBody config releaser maxRetries
    = throw (Error "Too many retries.").
Proof.
  intros Hle. rewrite release_equation_1.
  destruct (Z_le_gt_dec maxRetries 0) as [l | g]; [reflexivity | lia].
Qed.

Lemma release_attempt (maxRetries : Z) :
  0 < maxRetries ->
  release isTag releaseBody config releaser maxRetries =
  (found <- find_draft isTag config releaser ;;
   match found with
   | Some release => ret release
   | None =>
       existingRelease <- lookup isTag config releaser ;;
       match existingRelease with
       | Some existingRelease => update isTag releaseBody config releaser existingRelease
       | None =>
           try_catch
             (request Rejected (CreateRelease (create_params isTag releaseBody config))
                (createRelease releaser (create_params isTag releaseBody config)))
             (fun error =>
                lift (retry_message_errors error) ;;
                release isTag releaseBody config releaser (maxRetries - 1))
       end
   end).
Proof.
  intros Hpos. rewrite release_equation_1.
  destruct (Z_le_gt_dec maxRetries 0) as [l | g]; [lia | reflexivity].
Qed.

(** ** The scan of the release list *)

Lemma find_app_first {A} (f : A -> bool) (l1 l2 : list A) :
  find f (l1 ++ l2) = match find f l1 with Some x => Some x | None => find f l2 end.
Proof.
  induction l1 as [| a l1 IH]; simpl; [reflexivity |].
  destruct (f a); [reflexivity | exact IH].
Qed.

Lemma after_after (st : State W) (w1 w2 : W) (l1 l2 : list Call) :
  after (after st w1 l1) w2 l2 = after st w2 (l1 ++ l2).
Proof. unfold after; simpl. now rewrite <- app_assoc. Qed.

Lemma after_nil (st : State W) : after st (world st) [] = st.
Proof. destruct st; unfold after; simpl. now rewrite app_nil_r. Qed.

Lemma scan_pages_run (p : RepoParams) (tag : string) (pages : Pages) (st : State W) :
  scan_pages p tag pages st =
  (match first_match tag pages with
   | Some release => Return (Some release)
   | None => match failure pages with
             | Some e => Throw (Rejected e)
             | None => Return None
             end
   end,
   after st (world st) (repeat (ListPage p) (pages_read tag pages))).
Proof.
  revert st. induction pages as [| e | page_data rest IH]; intros st.
  - simpl. unfold ret. now rewrite after_nil.
  - reflexivity.
  - unfold first_match in *. simpl. rewrite find_app_first.
    unfold bind, request; simpl. fold (has_tag tag).
    destruct (find (has_tag tag) page_data) as [release |]; [reflexivity |].
    rewrite IH. simpl. unfold after; simpl. now rewrite <- app_assoc.
Qed.

Lemma find_draft_off (st : State W) :
  truthy_bool (input_draft config) = false ->
  find_draft isTag config releaser st = (Return None, st).
Proof. intros Hoff. unfold find_draft. now rewrite Hoff. Qed.

Lemma find_draft_run (st : State W) :
  truthy_bool (input_draft config) = true ->
  find_draft isTag config releaser st =
  scan_pages (list_params config) (tag_of isTag config)
    (allReleases releaser (list_params config) (world st)) st.
Proof. intros Hon. unfold find_draft. now rewrite Hon. Qed.

(** ** The lookup by tag *)

Lemma lookup_found (st : State W) (existingRelease : Release) (w : W) :
  getReleaseByTag releaser (lookup_params isTag config) (world st)
    = (inr existingRelease, w) ->
  lookup isTag config releaser st
    = (Return (Some existingRelease),
       after st w [GetReleaseByTag (lookup_params isTag config)]).
Proof.
  intros Hget. unfold lookup, try_catch, bind, request. rewrite Hget. reflexivity.
Qed.

Lemma lookup_not_found (st : State W) (e : RequestError) (w : W) :
  getReleaseByTag releaser (lookup_params isTag config) (world st) = (inl e, w) ->
  status e = Some 404 ->
  lookup isTag config releaser st
    = (Return None, after st w [GetReleaseByTag (lookup_params isTag config)]).
Proof.
  intros Hget H404. unfold lookup, try_catch, bind, request. rewrite Hget.
  destruct e as [s r]; simpl in *; subst s. reflexivity.
Qed.

Lemma lookup_fatal (st : State W) (e : RequestError) (w : W) :
  getReleaseByTag releaser (lookup_params isTag config) (world st) = (inl e, w) ->
  status e <> Some 404 ->
  lookup isTag config releaser st
    = (Throw (Rejected e),
       after st w [GetReleaseByTag (lookup_params isTag config)]).
Proof.
  intros Hget Hne. unfold lookup, try_catch, bind, request. rewrite Hget.
  destruct e as [s r]; simpl in *.
  destruct s as [z |]; [| reflexivity].
  destruct (Z.eqb_spec z 404) as [-> | Hz]; [congruence | reflexivity].
Qed.

(** ** Which path a run takes *)

Lemma find_draft_calls (st st1 : State W) (o : Outcome (option Release)) :
  find_draft isTag config releaser st = (o, st1) ->
  exists k, st1 = after st (world st) (repeat (ListPage (list_params config)) k).
Proof.
  unfold find_draft. destruct (truthy_bool (input_draft config)).
  - rewrite scan_pages_run. intros [= _ <-]. eauto.
  - intros [= _ <-]. exists 0%nat. now rewrite after_nil.
Qed.

Lemma release_update_path (maxRetries : Z) (st st1 : State W)
    (existingRelease : Release) (w2 : W) :
  0 < maxRetries ->
  find_draft isTag config releaser st = (Return None, st1) ->
  getReleaseByTag releaser (lookup_params isTag config) (world st1)
    = (inr existingRelease, w2) ->
  release isTag releaseBody config releaser maxRetries st
    = update isTag releaseBody config releaser existingRelease
        (after st1 w2 [GetReleaseByTag (lookup_params isTag config)]).
Proof.
  intros Hpos Hscan Hget. rewrite (release_attempt Hpos).
  unfold bind at 1. rewrite Hscan.
  unfold bind at 1. now rewrite (lookup_found _ Hget).
Qed.

Lemma release_create_path (maxRetries : Z) (st st1 : State W)
    (e : RequestError) (w2 : W) :
  0 < maxRetries ->
  find_draft isTag config releaser st = (Return None, st1) ->
  getReleaseByTag releaser (lookup_params isTag config) (world st1) = (inl e, w2) ->
  status e = Some 404 ->
  release isTag releaseBody config releaser maxRetries st
    = try_catch
        (request Rejected (CreateRelease (create_params isTag releaseBody config))
           (createRelease releaser (create_params isTag releaseBody config)))
        (fun error =>
           lift (retry_message_errors error) ;;
           release isTag releaseBody config releaser (maxRetries - 1))
        (after st1 w2 [GetReleaseByTag (lookup_params isTag config)]).
Proof.
  intros Hpos Hscan Hget H404. rewrite (release_attempt Hpos).
  unfold bind at 1. rewrite Hscan.
  unfold bind at 1. now rewrite (lookup_not_found _ Hget H404).
Qed.

(** A rejected creation whose retry message can be rendered is followed by
    a run with one retry less, from the state the rejection left. *)
Lemma release_retry (maxRetries : Z) (st st1 : State W)
    (e e' : RequestError) (w2 w3 : W) (errors : JsValue) :
  0 < maxRetries ->
  find_draft isTag config releaser st = (Return None, st1) ->
  getReleaseByTag releaser (lookup_params isTag config) (world st1) = (inl e, w2) ->
  status e = Some 404 ->
  createRelease releaser (create_params isTag releaseBody config) w2 = (inl e', w3) ->
  retry_message_errors (Rejected e') = inr errors ->
  release isTag releaseBody config releaser maxRetries st
    = release isTag releaseBody config releaser (maxRetries - 1)
        (after st1 w3 [GetReleaseByTag (lookup_params isTag config);
                       CreateRelease (create_params isTag releaseBody config)]).
Proof.
  intros Hpos Hscan Hget H404 Hcreate Hmsg.
  rewrite (@release_create_path _ _ _ _ _ Hpos Hscan Hget H404).
  unfold try_catch, request at 1; simpl. rewrite Hcreate.
  unfold bind at 1. rewrite Hmsg; simpl.
  now rewrite <- app_assoc.
Qed.

(** ** The update path *)

Lemma update_run (existingRelease : Release) (st : State W) :
  exists issued : list Call,
    calls (final (update isTag releaseBody config releaser existingRelease st))
      = (calls st ++ issued)%list
    /\ Forall (update_request (update_params isTag releaseBody config existingRelease))
         issued.
Proof.
  unfold update, update_tag, final.
  destruct (truthy_bool (input_update_tag config)).
  - unfold bind, request, sleep, request; simpl.
    destruct (deleteRef releaser _ (world st)) as [[e | u] w1]; simpl.
    { eexists; split; [reflexivity |]. repeat constructor. }
    destruct (createRef releaser _ w1) as [[e | u'] w2]; simpl.
    { eexists; split; [now rewrite <- app_assoc |]. repeat constructor. }
    destruct (updateRelease releaser _ w2) as [[e | r] w3]; simpl.
    all: eexists; split; [now rewrite <- !app_assoc |].
    all: repeat constructor.
  - unfold bind, ret, request; simpl.
    destruct (updateRelease releaser _ (world st)) as [[e | r] w3]; simpl.
    all: eexists; split; [reflexivity |].
    all: repeat constructor.
Qed.

(** Every update request of a run that finds [existingRelease] carries the
    merged fields of [update_params]. *)
Lemma release_update_requests (maxRetries : Z) (w : W) (st1 : State W)
    (existingRelease : Release) (w2 : W) (p : UpdateParams) :
  0 < maxRetries ->
  find_draft isTag config releaser (start w) = (Return None, st1) ->
  getReleaseByTag releaser (lookup_params isTag config) (world st1)
    = (inr existingRelease, w2) ->
  In (UpdateRelease p)
     (calls (final (release isTag releaseBody config releaser maxRetries (start w)))) ->
  p = update_params isTag releaseBody config existingRelease.
Proof.
  intros Hpos Hscan Hget Hin.
  rewrite (@release_update_path _ _ _ _ _ Hpos Hscan Hget) in Hin.
  destruct (update_run existingRelease
              (after st1 w2 [GetReleaseByTag (lookup_params isTag config)]))
    as (issued & Hcalls & Hissued).
  rewrite Hcalls in Hin.
  destruct (find_draft_calls _ Hscan) as [k ->]. simpl in Hin.
  rewrite !in_app_iff in Hin. destruct Hin as [[Hin | Hin] | Hin].
  - apply repeat_spec in Hin. discriminate.
  - destruct Hin as [H | []]. discriminate.
  - rewrite Forall_forall in Hissued. exact (Hissued _ Hin).
Qed.

(** ** The log only grows *)

Lemma extends_ret {A} (a : A) : extends (W:=W) (ret a).
Proof. intros st. exists []. simpl. now rewrite app_nil_r. Qed.

Lemma extends_throw {A} (t : Thrown) : extends (@throw W A t).
Proof. intros st. exists []. simpl. now rewrite app_nil_r. Qed.

Lemma extends_lift {A} (r : Thrown + A) : extends (W:=W) (lift r).
Proof. destruct r; [apply extends_throw | apply extends_ret]. Qed.

Lemma extends_request {E A} (inj : E -> Thrown) (c : Call) (f : W -> (E + A) * W) :
  extends (request inj c f).
Proof.
  intros st. exists [c]. unfold request, final.
  destruct (f (world st)) as [[e | a] w]; reflexivity.
Qed.

Lemma extends_bind {A B} (m : M W A) (k : A -> M W B) :
  extends m -> (forall a, extends (k a)) -> extends (bind m k).
Proof.
  unfold extends, bind, final in *. intros Hm Hk st.
  destruct (Hm st) as [l1 H1]. destruct (m st) as [[a | t] st1]; simpl in *.
  - destruct (Hk a st1) as [l2 H2]. exists (l1 ++ l2)%list.
    now rewrite H2, H1, app_assoc.
  - now exists l1.
Qed.

Lemma extends_try_catch {A} (m : M W A) (handler : Thrown -> M W A) :
  extends m -> (forall t, extends (handler t)) -> extends (try_catch m handler).
Proof.
  unfold extends, try_catch, final in *. intros Hm Hh st.
  destruct (Hm st) as [l1 H1]. destruct (m st) as [[a | t] st1]; simpl in *.
  - now exists l1.
  - destruct (Hh t st1) as [l2 H2]. exists (l1 ++ l2)%list.
    now rewrite H2, H1, app_assoc.
Qed.

Lemma extends_find_draft : extends (find_draft isTag config releaser).
Proof.
  intros st. destruct (find_draft isTag config releaser st) as [o st1] eqn:E.
  destruct (find_draft_calls _ E) as [k ->]. simpl. eauto.
Qed.

Lemma extends_lookup : extends (lookup isTag config releaser).
Proof.
  apply extends_try_catch.
  - apply extends_bind; [apply extends_request | intros; apply extends_ret].
  - intros t. destruct (status_is 404 t); [apply extends_ret | apply extends_throw].
Qed.

Lemma extends_update (existingRelease : Release) :
  extends (update isTag releaseBody config releaser existingRelease).
Proof.
  apply extends_bind; [| intros; apply extends_request].
  unfold update_tag. destruct (truthy_bool (input_update_tag config)).
  - repeat (apply extends_bind; [apply extends_request | intros]).
    apply extends_request.
  - apply extends_ret.
Qed.

Lemma extends_release (maxRetries : Z) :
  extends (release isTag releaseBody config releaser maxRetries).
Proof.
  destruct (Z_le_gt_dec maxRetries 0) as [Hle | Hgt].
  { rewrite (release_stop Hle). apply extends_throw. }
  assert (Hnat : 0 <= maxRetries) by lia. revert Hgt.
  pattern maxRetries. apply natlike_ind; [lia | | exact Hnat].
  intros n Hn IH _. rewrite release_attempt by lia.
  apply extends_bind; [apply extends_find_draft |].
  intros [found |]; [apply extends_ret |].
  apply extends_bind; [apply extends_lookup |].
  intros [existingRelease |]; [apply extends_update |].
  apply extends_try_catch; [apply extends_request |].
  intros t. apply extends_bind; [apply extends_lift |]. intros _.
  replace (Z.succ n - 1) with n by lia.
  destruct (Z_le_gt_dec n 0) as [Hle | Hgt].
  - rewrite (release_stop Hle). apply extends_throw.
  - apply IH. exact Hgt.
Qed.

(** ** Retries *)

(** A run whose lookups all report not-found and whose creation attempts are
    all rejected, each with a response the retry message can be rendered
    from, spends its retries: [maxRetries] creation attempts, then
    [Error "Too many retries."].  [Inv] describes the service states this
    is assumed of. *)
Section Exhaustion.

Variable Inv : W -> Prop.

Hypothesis scan_misses : forall w,
  truthy_bool (input_draft config) = true -> Inv w ->
  first_match (tag_of isTag config) (allReleases releaser (list_params config) w) = None
  /\ failure (allReleases releaser (list_params config) w) = None.

Hypothesis lookup_misses : forall w, Inv w ->
  exists e w',
    getReleaseByTag releaser (lookup_params isTag config) w = (inl e, w')
    /\ status e = Some 404 /\ Inv w'.

Hypothesis creation_rejected : forall w, Inv w ->
  exists e w' errors,
    createRelease releaser (create_params isTag releaseBody config) w = (inl e, w')
    /\ retry_message_errors (Rejected e) = inr errors /\ Inv w'.

Lemma creations_app (l1 l2 : list Call) :
  creations (l1 ++ l2) = (creations l1 + creations l2)%nat.
Proof. unfold creations. now rewrite filter_app, length_app. Qed.

Lemma creations_listing (p : RepoParams) (k : nat) :
  creations (repeat (ListPage p) k) = 0%nat.
Proof. induction k as [| k IH]; [reflexivity | exact IH]. Qed.

Lemma find_draft_misses (st : State W) :
  Inv (world st) ->
  exists st1,
    find_draft isTag config releaser st = (Return None, st1)
    /\ world st1 = world st /\ creations (calls st1) = creations (calls st).
Proof.
  intros HI. destruct (sumbool_of_bool (truthy_bool (input_draft config))) as [Hd | Hd].
  - rewrite (find_draft_run _ Hd), scan_pages_run.
    destruct (scan_misses Hd HI) as [-> ->].
    eexists; split; [reflexivity |]. split; [reflexivity |].
    simpl. rewrite creations_app, creations_listing. lia.
  - rewrite (find_draft_off _ Hd). eauto.
Qed.

Lemma release_gives_up (maxRetries : Z) (st : State W) :
  0 <= maxRetries ->
  Inv (world st) ->
  exists st',
    release isTag releaseBody config releaser maxRetries st
      = (Throw (Error "Too many retries."), st')
    /\ creations (calls st') = (creations (calls st) + Z.to_nat maxRetries)%nat
    /\ Inv (world st').
Proof.
  intros Hnat. revert st. pattern maxRetries.
  apply natlike_ind; [| | exact Hnat]; clear maxRetries Hnat.
  - intros st HI. rewrite release_stop by lia. exists st. simpl.
    repeat split; [lia | exact HI].
  - intros n Hn IH st HI.
    destruct (find_draft_misses _ HI) as (st1 & Hscan & Hw & Hc).
    rewrite <- Hw in HI.
    destruct (lookup_misses HI) as (e & w2 & Hget & H404 & HI2).
    destruct (creation_rejected HI2) as (e' & w3 & errors & Hcreate & Hmsg & HI3).
    assert (Hpos : 0 < Z.succ n) by lia.
    rewrite (@release_retry _ _ _ _ _ _ _ _ Hpos Hscan Hget H404 Hcreate Hmsg).
    replace (Z.succ n - 1) with n by lia.
    destruct (IH (after st1 w3 [GetReleaseByTag (lookup_params isTag config);
                               CreateRelease (create_params isTag releaseBody config)])
                HI3) as (st' & Hrun & Hcount & HI').
    exists st'. repeat split; [exact Hrun | | exact HI'].
    rewrite Hcount. simpl. rewrite creations_app, Hc, Z2Nat.inj_succ by lia.
    unfold creations at 2; simpl. lia.
Qed.

End Exhaustion.

(** ** After a rejected lookup *)

Lemma release_not_found_creates
    (maxRetries : Z) (st st1 : State W) (e : RequestError) (w2 : W) :
  0 < maxRetries ->
  find_draft isTag config releaser st = (Return None, st1) ->
  getReleaseByTag releaser (lookup_params isTag config) (world st1) = (inl e, w2) ->
  status e = Some 404 ->
  (exists rest : list Call,
     calls (final (release isTag releaseBody config releaser maxRetries st))
       = (calls st1 ++ GetReleaseByTag (lookup_params isTag config)
            :: CreateRelease (create_params isTag releaseBody config) :: rest)%list)
  /\ (forall created w3,
        createRelease releaser (create_params isTag releaseBody config) w2
          = (inr created, w3) ->
        release isTag releaseBody config releaser maxRetries st
          = (Return created,
             after st1 w3 [GetReleaseByTag (lookup_params isTag config);
                           CreateRelease (create_params isTag releaseBody config)])).
Proof.
  intros Hpos Hscan Hget H404.
  rewrite (@release_create_path _ _ _ _ _ Hpos Hscan Hget H404).
  unfold try_catch, request at 1, request at 1; simpl.
  destruct (createRelease releaser _ w2) as [[e' | created] w3] eqn:Hcreate.
  - split; [| intros ? ? [=]].
    assert (Hext : forall t,
               extends (lift (retry_message_errors t) ;;
                        release isTag releaseBody config releaser (maxRetries - 1))).
    { intros t. apply extends_bind; [apply extends_lift |].
      intros _. apply extends_release. }
    destruct (Hext (Rejected e')
                {| world := w3;
                   calls := (calls st1 ++ [GetReleaseByTag (lookup_params isTag config)])
                              ++ [CreateRelease (create_params isTag releaseBody config)] |})
      as [rest Hrest].
    exists rest. unfold final in Hrest |- *. rewrite Hrest. simpl.
    now rewrite <- !app_assoc.
  - split.
    + exists []. simpl. now rewrite <- app_assoc.
    + intros ? ? [= <- <-]. unfold after. now rewrite <- app_assoc.
Qed.

Lemma release_lookup_fatal
    (maxRetries : Z) (st st1 : State W) (e : RequestError) (w2 : W) :
  0 < maxRetries ->
  find_draft isTag config releaser st = (Return None, st1) ->
  getReleaseByTag releaser (lookup_params isTag config) (world st1) = (inl e, w2) ->
  status e <> Some 404 ->
  release isTag releaseBody config releaser maxRetries st
    = (Throw (Rejected e),
       after st1 w2 [GetReleaseByTag (lookup_params isTag config)]).
Proof.
  intros Hpos Hscan Hget Hne. rewrite (release_attempt Hpos).
  unfold bind at 1. rewrite Hscan.
  unfold bind at 1. now rewrite (lookup_fatal _ Hget Hne).
Qed.

(** ** Claims about the lookup *)

(** C6: when the lookup by tag is rejected with status 404, the run goes on
    to request the creation (and returns the created release if that
    request succeeds), so the rejection is not surfaced; when it is rejected
    with any other status, the run ends there with that very rejection, no
    further request being issued. *)
Theorem lookup_rejection_404_creates_else_propagates
    (maxRetries : Z) (st st1 : State W) (e : RequestError) (w2 : W) :
  0 < maxRetries ->
  find_draft isTag config releaser st = (Return None, st1) ->
  getReleaseByTag releaser (lookup_params isTag config) (world st1) = (inl e, w2) ->
  (status e = Some 404 ->
     (exists rest : list Call,
        calls (final (release isTag releaseBody config releaser maxRetries st))
          = (calls st1 ++ GetReleaseByTag (lookup_params isTag config)
               :: CreateRelease (create_params isTag releaseBody config) :: rest)%list)
     /\ (forall created w3,
           createRelease releaser (create_params isTag releaseBody config) w2
             = (inr created, w3) ->
           release isTag releaseBody config releaser maxRetries st
             = (Return created,
                after st1 w3 [GetReleaseByTag (lookup_params isTag config);
                              CreateRelease (create_params isTag releaseBody config)])))
  /\ (status e <> Some 404 ->
      release isTag releaseBody config releaser maxRetries st
        = (Throw (Rejected e),
           after st1 w2 [GetReleaseByTag (lookup_params isTag config)])).
Proof.
  intros Hpos Hscan Hget. split.
  - intros H404. exact (@release_not_found_creates _ _ _ _ _ Hpos Hscan Hget H404).
  - intros Hne. exact (@release_lookup_fatal _ _ _ _ _ Hpos Hscan Hget Hne).
Qed.

(** ** Claims about the update path *)

Lemma or_string_text (v : option string) : or_string v "" = text v.
Proof. destruct v as [s |]; simpl; [| reflexivity]. now destruct (String.eqb_spec s ""). Qed.

(** C3: in a run that finds [existingRelease], every update request carries
    as body the existing body, a newline and the workflow body when the
    append-body flag is set and both bodies are non-empty; otherwise the
    workflow body when that is non-empty, else the existing body. *)
Theorem update_body_merged (maxRetries : Z) (w : W) (st1 : State W)
    (existingRelease : Release) (w2 : W) (p : UpdateParams) :
  0 < maxRetries ->
  find_draft isTag config releaser (start w) = (Return None, st1) ->
  getReleaseByTag releaser (lookup_params isTag config) (world st1)
    = (inr existingRelease, w2) ->
  In (UpdateRelease p)
     (calls (final (release isTag releaseBody config releaser maxRetries (start w)))) ->
  let workflowBody := text (releaseBody config) in
  let existingBody := text (body existingRelease) in
  up_body p =
    Some (if truthy_bool (input_append_body config)
             && nonempty workflowBody && nonempty existingBody
          then existingBody ++ String "010" "" ++ workflowBody
          else if nonempty workflowBody then workflowBody else existingBody).
Proof.
  intros Hpos Hscan Hget Hin.
  rewrite (release_update_requests _ _ Hpos Hscan Hget Hin).
  unfold update_params, nonempty; simpl. rewrite !or_string_text.
  destruct (truthy_bool (input_append_body config)
            && negb (text (releaseBody config) =? "")%string
            && negb (text (body existingRelease) =? "")%string); [reflexivity |].
  now destruct (text (releaseBody config) =? "")%string.
Qed.

(** C4: in a run that finds [existingRelease], every update request carries
    the configured draft flag when it is defined and the existing release's
    flag when it is undefined, and likewise for prerelease. *)
Theorem update_flags_tristate (maxRetries : Z) (w : W) (st1 : State W)
    (existingRelease : Release) (w2 : W) (p : UpdateParams) :
  0 < maxRetries ->
  find_draft isTag config releaser (start w) = (Return None, st1) ->
  getReleaseByTag releaser (lookup_params isTag config) (world st1)
    = (inr existingRelease, w2) ->
  In (UpdateRelease p)
     (calls (final (release isTag releaseBody config releaser maxRetries (start w)))) ->
  up_draft p = Some (match input_draft config with
                     | Some configured => configured
                     | None => draft existingRelease
                     end)
  /\ up_prerelease p = Some (match input_prerelease config with
                             | Some configured => configured
                             | None => prerelease existingRelease
                             end).
Proof.
  intros Hpos Hscan Hget Hin.
  rewrite (release_update_requests _ _ Hpos Hscan Hget Hin).
  unfold update_params; simpl.
  split; [destruct (input_draft config) | destruct (input_prerelease config)];
    reflexivity.
Qed.

(** C7: in a run that finds [existingRelease]: with the update-tag flag
    set (and the two ref requests accepted) the requests after the lookup
    are exactly deleteRef of the existing tag, createRef of that tag at the
    triggering commit, the 2000 ms timer and updateRelease, in this order;
    with the flag unset the only request after the lookup is
    updateRelease. *)
Theorem update_tag_request_order (maxRetries : Z) (st st1 : State W)
    (existingRelease : Release) (w2 : W) :
  0 < maxRetries ->
  find_draft isTag config releaser st = (Return None, st1) ->
  getReleaseByTag releaser (lookup_params isTag config) (world st1)
    = (inr existingRelease, w2) ->
  let deleted := {| dr_owner := owner_of config; dr_repo := repo_of config;
                    dr_ref := "tags/" ++ tag_name existingRelease |} in
  let moved := {| cr_owner := owner_of config; cr_repo := repo_of config;
                  cr_ref := "refs/tags/" ++ tag_name existingRelease;
                  cr_sha := github_sha config |} in
  let log := calls (final (release isTag releaseBody config releaser maxRetries st)) in
  let found := (calls st1 ++ [GetReleaseByTag (lookup_params isTag config)])%list in
  (truthy_bool (input_update_tag config) = true ->
   forall w3 w4,
     deleteRef releaser deleted w2 = (inr tt, w3) ->
     createRef releaser moved w3 = (inr tt, w4) ->
     log = (found ++ [DeleteRef deleted; CreateRef moved; Sleep 2000;
                      UpdateRelease (update_params isTag releaseBody config
                                       existingRelease)])%list)
  /\ (truthy_bool (input_update_tag config) = false ->
      log = (found ++ [UpdateRelease (update_params isTag releaseBody config
                                        existingRelease)])%list).
Proof.
  intros Hpos Hscan Hget deleted moved log found. subst log found.
  rewrite (@release_update_path _ _ _ _ _ Hpos Hscan Hget).
  unfold update, update_tag, final. split.
  - intros Hon w3 w4 Hdel Hcre. rewrite Hon.
    unfold bind, sleep, request, delete_ref_params, create_ref_params, after.
    subst deleted moved. cbn [world calls].
    rewrite Hdel. cbn [world calls]. rewrite Hcre. cbn [world calls].
    destruct (updateRelease releaser _ w4) as [[e | r] w5]; cbn [snd calls];
      now rewrite <- !app_assoc.
  - intros Hoff. rewrite Hoff.
    unfold bind, ret, request; simpl.
    destruct (updateRelease releaser _ w2) as [[e | r] w5]; reflexivity.
Qed.

(** ** Claims about the draft scan *)

Lemma update_plain_run (existingRelease : Release) (st : State W)
    (answer : RequestError + Release) (w3 : W) :
  truthy_bool (input_update_tag config) = false ->
  updateRelease releaser (update_params isTag releaseBody config existingRelease)
    (world st) = (answer, w3) ->
  update isTag releaseBody config releaser existingRelease st
  = (match answer with
     | inl e => Throw (Rejected e)
     | inr updated => Return updated
     end,
     after st w3
       [UpdateRelease (update_params isTag releaseBody config existingRelease)]).
Proof.
  intros Hoff Hupdate. unfold update, update_tag. rewrite Hoff.
  unfold bind, ret, request. rewrite Hupdate. now destruct answer.
Qed.

Lemma update_moving_run (existingRelease : Release) (st : State W)
    (w3 w4 w5 : W) (answer : RequestError + Release) :
  truthy_bool (input_update_tag config) = true ->
  deleteRef releaser (delete_ref_params config existingRelease) (world st)
    = (inr tt, w3) ->
  createRef releaser (create_ref_params config existingRelease) w3 = (inr tt, w4) ->
  updateRelease releaser (update_params isTag releaseBody config existingRelease) w4
    = (answer, w5) ->
  update isTag releaseBody config releaser existingRelease st
  = (match answer with
     | inl e => Throw (Rejected e)
     | inr updated => Return updated
     end,
     after st w5
       [DeleteRef (delete_ref_params config existingRelease);
        CreateRef (create_ref_params config existingRelease);
        Sleep 2000;
        UpdateRelease (update_params isTag releaseBody config existingRelease)]).
Proof.
  intros Hon Hdel Hcre Hupdate. unfold update, update_tag. rewrite Hon.
  unfold bind, sleep, request. rewrite Hdel. cbn [world calls]. rewrite Hcre.
  cbn [world calls]. rewrite Hupdate.
  unfold after. destruct answer; cbn [calls]; now rewrite <- !app_assoc.
Qed.

(** C5 (as amended): with the draft flag set, the run requests the pages of
    the release list in order and returns the first release carrying the
    tag, no further page and no other request being issued; if no page
    carries the tag, the next request is the lookup by tag, and from there
    the run takes the create path when that lookup reports not-found (its
    next request is the creation) and the update path when it finds a
    release: the ref requests and the timer if the update-tag flag is set,
    then the update of that release, whose answer is the result. *)
Theorem draft_scan_first_match_else_lookup (maxRetries : Z) (st : State W) :
  0 < maxRetries ->
  truthy_bool (input_draft config) = true ->
  let tag := tag_of isTag config in
  let pages := allReleases releaser (list_params config) (world st) in
  let listed := after st (world st)
                  (repeat (ListPage (list_params config)) (pages_read tag pages)) in
  let run := release isTag releaseBody config releaser maxRetries st in
  let result (answer : RequestError + Release) :=
    match answer with
    | inl e => Throw (Rejected e)
    | inr updated => Return updated
    end in
  (forall found, first_match tag pages = Some found -> run = (Return found, listed))
  /\ (first_match tag pages = None -> failure pages = None ->
      (exists rest : list Call,
         calls (final run)
           = (calls listed ++ GetReleaseByTag (lookup_params isTag config) :: rest)%list)
      /\ (forall e w2,
            getReleaseByTag releaser (lookup_params isTag config) (world st)
              = (inl e, w2) ->
            status e = Some 404 ->
            exists rest : list Call,
              calls (final run)
                = (calls listed
                     ++ GetReleaseByTag (lookup_params isTag config)
                     :: CreateRelease (create_params isTag releaseBody config)
                     :: rest)%list)
      /\ (forall existingRelease w2,
            getReleaseByTag releaser (lookup_params isTag config) (world st)
              = (inr existingRelease, w2) ->
            let merged := update_params isTag releaseBody config existingRelease in
            let deleted := {| dr_owner := owner_of config; dr_repo := repo_of config;
                              dr_ref := "tags/" ++ tag_name existingRelease |} in
            let moved := {| cr_owner := owner_of config; cr_repo := repo_of config;
                            cr_ref := "refs/tags/" ++ tag_name existingRelease;
                            cr_sha := github_sha config |} in
            (truthy_bool (input_update_tag config) = false ->
             forall answer w3,
               updateRelease releaser merged w2 = (answer, w3) ->
               run = (result answer,
                      after listed w3
                        [GetReleaseByTag (lookup_params isTag config);
                         UpdateRelease merged]))
            /\ (truthy_bool (input_update_tag config) = true ->
                forall w3 w4 answer w5,
                  deleteRef releaser deleted w2 = (inr tt, w3) ->
                  createRef releaser moved w3 = (inr tt, w4) ->
                  updateRelease releaser merged w4 = (answer, w5) ->
                  run = (result answer,
                         after listed w5
                           [GetReleaseByTag (lookup_params isTag config);
                            DeleteRef deleted; CreateRef moved; Sleep 2000;
                            UpdateRelease merged])))).
Proof.
  intros Hpos Hdraft tag pages listed run result.
  assert (Hscan : find_draft isTag config releaser st
                  = (match first_match tag pages with
                     | Some release => Return (Some release)
                     | None => match failure pages with
                               | Some e => Throw (Rejected e)
                               | None => Return None
                               end
                     end, listed)).
  { rewrite (find_draft_run _ Hdraft). apply scan_pages_run. }
  split.
  - intros found Hfound. subst run. rewrite (release_attempt Hpos).
    unfold bind at 1. rewrite Hscan, Hfound. reflexivity.
  - intros Hnone Hcomplete. rewrite Hnone, Hcomplete in Hscan.
    assert (Hworld : world listed = world st) by reflexivity.
    split; [| split].
    + destruct (getReleaseByTag releaser (lookup_params isTag config) (world listed))
        as [[e | existingRelease] w2] eqn:Hget.
      * destruct (Z.eq_dec (match status e with Some s => s | None => 0 end) 404)
          as [H404 | Hne].
        { assert (Hs : status e = Some 404).
          { destruct (status e); [now subst | discriminate]. }
          destruct (@release_not_found_creates _ _ _ _ _ Hpos Hscan Hget Hs)
            as [[rest Hrest] _].
          exists (CreateRelease (create_params isTag releaseBody config) :: rest).
          exact Hrest. }
        { assert (Hs : status e <> Some 404).
          { intros Hs. rewrite Hs in Hne. now apply Hne. }
          exists []. subst run.
          now rewrite (@release_lookup_fatal _ _ _ _ _ Hpos Hscan Hget Hs). }
      * subst run. rewrite (@release_update_path _ _ _ _ _ Hpos Hscan Hget).
        destruct (update_run existingRelease
                    (after listed w2 [GetReleaseByTag (lookup_params isTag config)]))
          as (issued & Hcalls & _).
        exists issued. rewrite Hcalls. simpl. now rewrite <- app_assoc.
    + intros e w2 Hget Hs. rewrite <- Hworld in Hget.
      destruct (@release_not_found_creates _ _ _ _ _ Hpos Hscan Hget Hs)
        as [[rest Hrest] _].
      exists rest. exact Hrest.
    + intros existingRelease w2 Hget merged deleted moved. rewrite <- Hworld in Hget.
      subst run. rewrite (@release_update_path _ _ _ _ _ Hpos Hscan Hget). split.
      * intros Hoff answer w3 Hupdate.
        rewrite (@update_plain_run existingRelease
                   (after listed w2 [GetReleaseByTag (lookup_params isTag config)])
                   answer w3 Hoff Hupdate).
        unfold after. cbn [calls world]. now rewrite <- app_assoc.
      * intros Hon w3 w4 answer w5 Hdel Hcre Hupdate.
        rewrite (@update_moving_run existingRelease
                   (after listed w2 [GetReleaseByTag (lookup_params isTag config)])
                   w3 w4 w5 answer Hon Hdel Hcre Hupdate).
        unfold after. cbn [calls world]. now rewrite <- app_assoc.
Qed.

(** ** Which requests a run can issue *)

Lemma issues_ret {A} (P : Call -> Prop) (a : A) : issues (W:=W) P (ret a).
Proof. intros st. exists []. simpl. now rewrite app_nil_r. Qed.

Lemma issues_throw {A} (P : Call -> Prop) (t : Thrown) : issues P (@throw W A t).
Proof. intros st. exists []. simpl. now rewrite app_nil_r. Qed.

Lemma issues_lift {A} (P : Call -> Prop) (r : Thrown + A) : issues (W:=W) P (lift r).
Proof. destruct r; [apply issues_throw | apply issues_ret]. Qed.

Lemma issues_request {E A} (P : Call -> Prop) (inj : E -> Thrown) (c : Call)
    (f : W -> (E + A) * W) :
  P c -> issues P (request inj c f).
Proof.
  intros Hc st. exists [c]. unfold request, final.
  destruct (f (world st)) as [[e | a] w]; split; auto.
Qed.

Lemma issues_bind {A B} (P : Call -> Prop) (m : M W A) (k : A -> M W B) :
  issues P m -> (forall a, issues P (k a)) -> issues P (bind m k).
Proof.
  unfold issues, bind, final in *. intros Hm Hk st.
  destruct (Hm st) as (l1 & H1 & HP1). destruct (m st) as [[a | t] st1]; simpl in *.
  - destruct (Hk a st1) as (l2 & H2 & HP2). exists (l1 ++ l2)%list. split.
    + now rewrite H2, H1, app_assoc.
    + apply Forall_app. now split.
  - now exists l1.
Qed.

Lemma issues_try_catch {A} (P : Call -> Prop) (m : M W A) (handler : Thrown -> M W A) :
  issues P m -> (forall t, issues P (handler t)) -> issues P (try_catch m handler).
Proof.
  unfold issues, try_catch, final in *. intros Hm Hh st.
  destruct (Hm st) as (l1 & H1 & HP1). destruct (m st) as [[a | t] st1]; simpl in *.
  - now exists l1.
  - destruct (Hh t st1) as (l2 & H2 & HP2). exists (l1 ++ l2)%list. split.
    + now rewrite H2, H1, app_assoc.
    + apply Forall_app. now split.
Qed.

Lemma issues_find_draft :
  issues (release_request isTag releaseBody config) (find_draft isTag config releaser).
Proof.
  intros st. destruct (sumbool_of_bool (truthy_bool (input_draft config))) as [Hd | Hd].
  - rewrite (find_draft_run _ Hd), scan_pages_run. simpl. eexists. split; [reflexivity |].
    apply Forall_forall. intros c Hc. apply repeat_spec in Hc. subst c.
    simpl. now split.
  - rewrite (find_draft_off _ Hd). exists []. simpl. now rewrite app_nil_r.
Qed.

Lemma issues_lookup :
  issues (release_request isTag releaseBody config) (lookup isTag config releaser).
Proof.
  apply issues_try_catch.
  - apply issues_bind; [now apply issues_request | intros; apply issues_ret].
  - intros t. destruct (status_is 404 t); [apply issues_ret | apply issues_throw].
Qed.

Lemma issues_update (existingRelease : Release) :
  issues (release_request isTag releaseBody config)
    (update isTag releaseBody config releaser existingRelease).
Proof.
  apply issues_bind.
  - unfold update_tag.
    destruct (sumbool_of_bool (truthy_bool (input_update_tag config))) as [Ht | Ht];
      rewrite Ht; [| apply issues_ret].
    apply issues_bind; [apply issues_request; simpl; eauto | intros _].
    apply issues_bind; [apply issues_request; simpl; eauto | intros _].
    apply issues_request. simpl. now split.
  - intros _. apply issues_request. simpl. eauto.
Qed.

Lemma issues_release (maxRetries : Z) :
  issues (release_request isTag releaseBody config)
    (release isTag releaseBody config releaser maxRetries).
Proof.
  destruct (Z_le_gt_dec maxRetries 0) as [Hle | Hgt].
  { rewrite (release_stop Hle). apply issues_throw. }
  assert (Hnat : 0 <= maxRetries) by lia. revert Hgt.
  pattern maxRetries. apply natlike_ind; [lia | | exact Hnat].
  intros n Hn IH _. rewrite release_attempt by lia.
  apply issues_bind; [apply issues_find_draft |].
  intros [found |]; [apply issues_ret |].
  apply issues_bind; [apply issues_lookup |].
  intros [existingRelease |]; [apply issues_update |].
  apply issues_try_catch; [now apply issues_request |].
  intros t. apply issues_bind; [apply issues_lift |]. intros _.
  replace (Z.succ n - 1) with n by lia.
  destruct (Z_le_gt_dec n 0) as [Hle | Hgt].
  - rewrite (release_stop Hle). apply issues_throw.
  - apply IH. exact Hgt.
Qed.


(** X1: with a retry count that is zero or negative, [release] fails with
    [Error "Too many retries."] at once: the service is not contacted and
    the state is left as it was. *)
Theorem release_without_retries_contacts_nobody (maxRetries : Z) (st : State W) :
  maxRetries <= 0 ->
  release isTag releaseBody config releaser maxRetries st
    = (Throw (Error "Too many retries."), st).
Proof. intros Hle. now rewrite (release_stop Hle). Qed.

(** ** How many creations a run can issue *)

Lemma quiet_creations {A} (m : M W A) (st : State W) :
  issues quiet m -> creations (calls (final (m st))) = creations (calls st).
Proof.
  intros Hm. destruct (Hm st) as (issued & -> & Hq).
  rewrite creations_app. enough (creations issued = 0%nat) by lia.
  induction Hq as [| c l Hc _ IH]; [reflexivity |].
  unfold creations in *. simpl. unfold quiet in Hc. now rewrite Hc.
Qed.

Lemma quiet_find_draft : issues quiet (find_draft isTag config releaser).
Proof.
  intros st. destruct (find_draft isTag config releaser st) as [o st1] eqn:E.
  destruct (find_draft_calls _ E) as [k ->]. simpl. eexists. split; [reflexivity |].
  apply Forall_forall. intros c Hc. apply repeat_spec in Hc. now subst c.
Qed.

Lemma quiet_lookup : issues quiet (lookup isTag config releaser).
Proof.
  apply issues_try_catch.
  - apply issues_bind; [now apply issues_request | intros; apply issues_ret].
  - intros t. destruct (status_is 404 t); [apply issues_ret | apply issues_throw].
Qed.

Lemma quiet_update (existingRelease : Release) :
  issues quiet (update isTag releaseBody config releaser existingRelease).
Proof.
  apply issues_bind; [| intros; now apply issues_request].
  unfold update_tag. destruct (truthy_bool (input_update_tag config)).
  - repeat (apply issues_bind; [now apply issues_request | intros]).
    now apply issues_request.
  - apply issues_ret.
Qed.

Lemma release_creations_le (maxRetries : Z) (st : State W) :
  (creations (calls (final (release isTag releaseBody config releaser maxRetries st)))
   <= creations (calls st) + Z.to_nat maxRetries)%nat.
Proof.
  destruct (Z_le_gt_dec maxRetries 0) as [Hle | Hgt].
  { rewrite (release_stop Hle). simpl. lia. }
  assert (Hnat : 0 <= maxRetries) by lia. clear Hgt. revert st.
  pattern maxRetries. apply natlike_ind; [| | exact Hnat]; clear maxRetries Hnat.
  { intros st. rewrite release_stop by lia. simpl. lia. }
  intros n Hn IH st. rewrite release_attempt by lia.
  rewrite Z2Nat.inj_succ by lia.
  pose proof (quiet_creations st quiet_find_draft) as Hscan.
  unfold bind at 1.
  destruct (find_draft isTag config releaser st) as [[[found |] | t] st1];
    simpl in Hscan; [simpl; lia | | simpl; lia].
  pose proof (quiet_creations st1 quiet_lookup) as Hlook.
  unfold bind at 1.
  destruct (lookup isTag config releaser st1) as [[[existingRelease |] | t] st2];
    simpl in Hlook; [| | simpl; lia].
  - pose proof (quiet_creations st2 (quiet_update existingRelease)). lia.
  - unfold try_catch, request at 1.
    destruct (createRelease releaser _ (world st2)) as [[e | created] w3].
    + unfold bind, lift.
      destruct (retry_message_errors (Rejected e)) as [t | errors].
      * simpl. rewrite creations_app. unfold creations at 2; simpl. lia.
      * unfold ret at 1. replace (Z.succ n - 1) with n by lia.
        match goal with
        | |- context [release _ _ _ _ n ?s] => specialize (IH s)
        end.
        simpl in IH. rewrite creations_app in IH.
        unfold creations at 3 in IH; simpl in IH. lia.
    + simpl. rewrite creations_app. unfold creations at 2; simpl. lia.
Qed.

(** X3: on any service, a run of [release] issues at most [maxRetries]
    creation requests (none when [maxRetries] is not positive). *)
Theorem release_creations_bounded (maxRetries : Z) (w : W) :
  (creations (calls (final (release isTag releaseBody config releaser maxRetries
                              (start w))))
   <= Z.to_nat maxRetries)%nat.
Proof. exact (release_creations_le maxRetries (start w)). Qed.

(** ** Creation that succeeds after rejected attempts *)

Section Transient.

(** [Inv k] describes the service states in which [k] more creation
    attempts will be rejected before one is accepted. *)
Variable Inv : nat -> W -> Prop.

Hypothesis scan_finds_nothing : forall k w,
  truthy_bool (input_draft config) = true -> Inv k w ->
  first_match (tag_of isTag config) (allReleases releaser (list_params config) w) = None
  /\ failure (allReleases releaser (list_params config) w) = None.

Hypothesis lookup_finds_nothing : forall k w, Inv k w ->
  exists e w',
    getReleaseByTag releaser (lookup_params isTag config) w = (inl e, w')
    /\ status e = Some 404 /\ Inv k w'.

Hypothesis creation_fails : forall k w, Inv (S k) w ->
  exists e w' errors,
    createRelease releaser (create_params isTag releaseBody config) w = (inl e, w')
    /\ retry_message_errors (Rejected e) = inr errors /\ Inv k w'.

Hypothesis creation_succeeds : forall w, Inv 0%nat w ->
  exists created w',
    createRelease releaser (create_params isTag releaseBody config) w = (inr created, w').

Lemma find_draft_finds_nothing (k : nat) (st : State W) :
  Inv k (world st) ->
  exists st1,
    find_draft isTag config releaser st = (Return None, st1)
    /\ world st1 = world st /\ creations (calls st1) = creations (calls st).
Proof.
  intros HI. destruct (sumbool_of_bool (truthy_bool (input_draft config))) as [Hd | Hd].
  - rewrite (find_draft_run _ Hd), scan_pages_run.
    destruct (scan_finds_nothing Hd HI) as [-> ->].
    eexists; split; [reflexivity |]. split; [reflexivity |].
    simpl. rewrite creations_app, creations_listing. lia.
  - rewrite (find_draft_off _ Hd). eauto.
Qed.

(** X4: when the tag is not found and the service rejects [k] creation
    attempts (each with a response the retry message can be rendered from)
    before accepting one, a run with more than [k] retries returns a created
    release after exactly [k + 1] creation requests. *)
Theorem release_succeeds_after_rejections (k : nat) (maxRetries : Z) (st : State W) :
  Z.of_nat k < maxRetries ->
  Inv k (world st) ->
  exists created st',
    release isTag releaseBody config releaser maxRetries st = (Return created, st')
    /\ creations (calls st') = (creations (calls st) + k + 1)%nat.
Proof.
  revert maxRetries st. induction k as [| k IH]; intros maxRetries st Hlt HI.
  - destruct (find_draft_finds_nothing _ HI) as (st1 & Hscan & Hw & Hc).
    rewrite <- Hw in HI.
    destruct (lookup_finds_nothing HI) as (e & w2 & Hget & H404 & HI2).
    destruct (creation_succeeds HI2) as (created & w3 & Hcreate).
    assert (Hpos : 0 < maxRetries) by lia.
    rewrite (@release_create_path _ _ _ _ _ Hpos Hscan Hget H404).
    unfold try_catch, request at 1. cbn [world calls after]. rewrite Hcreate.
    exists created. eexists. split; [reflexivity |].
    simpl. rewrite !creations_app, Hc. unfold creations at 2 3; simpl. lia.
  - destruct (find_draft_finds_nothing _ HI) as (st1 & Hscan & Hw & Hc).
    rewrite <- Hw in HI.
    destruct (lookup_finds_nothing HI) as (e & w2 & Hget & H404 & HI2).
    destruct (creation_fails HI2) as (e' & w3 & errors & Hcreate & Hmsg & HI3).
    assert (Hpos : 0 < maxRetries) by lia.
    rewrite (@release_retry _ _ _ _ _ _ _ _ Hpos Hscan Hget H404 Hcreate Hmsg).
    destruct (IH (maxRetries - 1)
                (after st1 w3 [GetReleaseByTag (lookup_params isTag config);
                               CreateRelease (create_params isTag releaseBody config)]))
      as (created & st' & Hrun & Hcount); [lia | exact HI3 |].
    exists created, st'. split; [exact Hrun |].
    rewrite Hcount. simpl. rewrite creations_app, Hc.
    unfold creations at 2; simpl. lia.
Qed.

End Transient.

(** ** How the update path ends *)

(** X5: in a run that finds [existingRelease] with the update-tag flag
    unset, the update request is the last request and its answer is the
    result of the run: the updated release when it is accepted, the
    rejection itself when it is rejected; a rejected update is not retried
    and no creation is attempted. *)
Theorem release_update_answer_is_result (maxRetries : Z) (st st1 : State W)
    (existingRelease : Release) (w2 w3 : W) (answer : RequestError + Release) :
  0 < maxRetries ->
  find_draft isTag config releaser st = (Return None, st1) ->
  getReleaseByTag releaser (lookup_params isTag config) (world st1)
    = (inr existingRelease, w2) ->
  truthy_bool (input_update_tag config) = false ->
  updateRelease releaser (update_params isTag releaseBody config existingRelease) w2
    = (answer, w3) ->
  release isTag releaseBody config releaser maxRetries st
    = (match answer with
       | inl e => Throw (Rejected e)
       | inr updated => Return updated
       end,
       after st1 w3
         [GetReleaseByTag (lookup_params isTag config);
          UpdateRelease (update_params isTag releaseBody config existingRelease)]).
Proof.
  intros Hpos Hscan Hget Hoff Hupdate.
  rewrite (@release_update_path _ _ _ _ _ Hpos Hscan Hget).
  unfold update, update_tag. rewrite Hoff.
  unfold bind, ret, request. cbn [world calls after]. rewrite Hupdate.
  unfold after. destruct answer; cbn [calls]; now rewrite <- app_assoc.
Qed.

(** X6: in a run that finds [existingRelease] with the update-tag flag set:
    when the deletion of the tag ref is rejected the run ends with that
    rejection and issues nothing more; when the deletion is accepted and the
    creation of the ref is rejected the run ends with that rejection after
    these two requests.  In both cases neither the timer nor the update
    request is issued. *)
Theorem release_ref_rejection_ends_run (maxRetries : Z) (st st1 : State W)
    (existingRelease : Release) (w2 : W) :
  0 < maxRetries ->
  find_draft isTag config releaser st = (Return None, st1) ->
  getReleaseByTag releaser (lookup_params isTag config) (world st1)
    = (inr existingRelease, w2) ->
  truthy_bool (input_update_tag config) = true ->
  (forall e w3,
     deleteRef releaser (delete_ref_params config existingRelease) w2 = (inl e, w3) ->
     release isTag releaseBody config releaser maxRetries st
       = (Throw (Rejected e),
          after st1 w3 [GetReleaseByTag (lookup_params isTag config);
                        DeleteRef (delete_ref_params config existingRelease)]))
  /\ (forall w3 e w4,
        deleteRef releaser (delete_ref_params config existingRelease) w2 = (inr tt, w3) ->
        createRef releaser (create_ref_params config existingRelease) w3 = (inl e, w4) ->
        release isTag releaseBody config releaser maxRetries st
          = (Throw (Rejected e),
             after st1 w4 [GetReleaseByTag (lookup_params isTag config);
                           DeleteRef (delete_ref_params config existingRelease);
                           CreateRef (create_ref_params config existingRelease)])).
Proof.
  intros Hpos Hscan Hget Hon.
  rewrite (@release_update_path _ _ _ _ _ Hpos Hscan Hget).
  unfold update, update_tag. rewrite Hon. split.
  - intros e w3 Hdel. unfold bind, request. cbn [world calls after]. rewrite Hdel.
    unfold after. now rewrite <- app_assoc.
  - intros w3 e w4 Hdel Hcre. unfold bind, request. cbn [world calls after].
    rewrite Hdel. cbn [world calls]. rewrite Hcre.
    unfold after. now rewrite <- !app_assoc.
Qed.

(** ** A rejected page request *)

(** X7: with the draft flag set, when a page request of the release list is
    rejected before any release with the tag was seen, the run ends with
    that rejection: the pages up to the rejected one are the only requests,
    no lookup by tag and no creation follow. *)
Theorem release_page_rejection_ends_run (maxRetries : Z) (st : State W)
    (e : RequestError) :
  0 < maxRetries ->
  truthy_bool (input_draft config) = true ->
  first_match (tag_of isTag config)
    (allReleases releaser (list_params config) (world st)) = None ->
  failure (allReleases releaser (list_params config) (world st)) = Some e ->
  release isTag releaseBody config releaser maxRetries st
    = (Throw (Rejected e),
       after st (world st)
         (repeat (ListPage (list_params config))
            (pages_read (tag_of isTag config)
               (allReleases releaser (list_params config) (world st))))).
Proof.
  intros Hpos Hdraft Hnone Hfail. rewrite (release_attempt Hpos).
  unfold bind at 1. rewrite (find_draft_run _ Hdraft), scan_pages_run, Hnone, Hfail.
  reflexivity.
Qed.

(** ** The other merged fields *)

(** X8: in a run that finds [existingRelease], every update request is
    addressed to that release's id and carries the resolved tag; its name is
    the configured name, else the existing name, else the tag (an empty text
    counting as absent); its target commit is the configured one when that
    is non-empty and the existing one otherwise; the discussion category and
    the generate-notes flag are passed as configured. *)
Theorem update_identity_name_commit (maxRetries : Z) (w : W) (st1 : State W)
    (existingRelease : Release) (w2 : W) (p : UpdateParams) :
  0 < maxRetries ->
  find_draft isTag config releaser (start w) = (Return None, st1) ->
  getReleaseByTag releaser (lookup_params isTag config) (world st1)
    = (inr existingRelease, w2) ->
  In (UpdateRelease p)
     (calls (final (release isTag releaseBody config releaser maxRetries (start w)))) ->
  up_release_id p = id existingRelease
  /\ up_tag_name p = tag_of isTag config
  /\ up_name p = (if nonempty (text (input_name config)) then text (input_name config)
                  else if nonempty (text (name existingRelease))
                       then text (name existingRelease)
                       else tag_of isTag config)
  /\ up_target_commitish p
     = (if nonempty (text (input_target_commitish config))
        then text (input_target_commitish config)
        else target_commitish existingRelease)
  /\ up_discussion_category_name p = input_discussion_category_name config
  /\ up_generate_release_notes p = input_generate_release_notes config.
Proof.
  intros Hpos Hscan Hget Hin.
  rewrite (release_update_requests _ _ Hpos Hscan Hget Hin).
  unfold update_params, nonempty; simpl.
  repeat split.
  - destruct (input_name config) as [n |]; simpl.
    + destruct (n =? "")%string; simpl; [| reflexivity].
      destruct (name existingRelease) as [m |]; simpl; [| reflexivity].
      now destruct (m =? "")%string.
    + destruct (name existingRelease) as [m |]; simpl; [| reflexivity].
      now destruct (m =? "")%string.
  - destruct (input_target_commitish config) as [c |]; simpl; [| reflexivity].
    destruct (String.eqb_spec c ""); simpl; [reflexivity |].
    destruct (String.eqb_spec c (target_commitish existingRelease)); simpl; congruence.
Qed.

(** ** The tag and the repository *)

Lemma substring_all (s : string) : substring 0 (length s) s = s.
Proof. induction s as [| c s IH]; simpl; [reflexivity | now rewrite IH]. Qed.

Lemma replace_refs_tags (t : string) : replace "refs/tags/" "" ("refs/tags/" ++ t) = t.
Proof.
  unfold replace.
  assert (Hindex : index 0 "refs/tags/" ("refs/tags/" ++ t) = Some 0%nat).
  { simpl. now destruct t. }
  rewrite Hindex. simpl. rewrite Nat.sub_0_r. apply substring_all.
Qed.

(** X9: the tag that is reconciled is the configured tag name when that is
    non-empty, whatever the triggering ref; otherwise, for a triggering ref
    [refs/tags/t] that [isTag] accepts, it is [t]; otherwise it is empty. *)
Theorem tag_resolution :
  (forall t, input_tag_name config = Some t -> t <> "" -> tag_of isTag config = t)
  /\ (text (input_tag_name config) = "" ->
      (forall t, isTag (github_ref config) = true ->
                 github_ref config = "refs/tags/" ++ t ->
                 tag_of isTag config = t)
      /\ (isTag (github_ref config) = false -> tag_of isTag config = "")).
Proof.
  unfold tag_of. split.
  - intros t -> Ht. simpl. now destruct (String.eqb_spec t "").
  - intros Hnone.
    assert (Hor : forall d, or_string (input_tag_name config) d = d).
    { intros d. destruct (input_tag_name config) as [s |]; simpl in *; [| reflexivity].
      now subst s. }
    rewrite Hor. split.
    + intros t -> ->. apply replace_refs_tags.
    + now intros ->.
Qed.




(** ** The arguments of a creation *)

(** X19: every creation request of a run, first attempt or retry, carries
    the resolved tag, as name the configured name or the tag when no
    non-empty name is configured, as body what [releaseBody] computes, and
    the draft, prerelease, target commit, discussion category and
    generate-notes inputs exactly as configured (undefined when unset). *)
Theorem creation_arguments (maxRetries : Z) (w : W) (p : CreateParams) :
  In (CreateRelease p)
     (calls (final (release isTag releaseBody config releaser maxRetries (start w)))) ->
  cp_tag_name p = tag_of isTag config
  /\ cp_name p = (if nonempty (text (input_name config)) then text (input_name config)
                  else tag_of isTag config)
  /\ cp_body p = releaseBody config
  /\ cp_draft p = input_draft config
  /\ cp_prerelease p = input_prerelease config
  /\ cp_target_commitish p = input_target_commitish config
  /\ cp_discussion_category_name p = input_discussion_category_name config
  /\ cp_generate_release_notes p = input_generate_release_notes config.
Proof.
  intros Hin. destruct (issues_release maxRetries (start w)) as (issued & Hlog & Hall).
  rewrite Hlog in Hin. simpl in Hin.
  rewrite Forall_forall in Hall. specialize (Hall _ Hin). simpl in Hall. subst p.
  unfold create_params, nonempty; simpl. repeat split.
  destruct (input_name config) as [n |]; simpl; [| reflexivity].
  now destruct (n =? "")%string.
Qed.

(** ** Reconciling twice *)

(** X20: on a service that finds by tag the release it has just created,
    a second run of [release] with the same configuration (draft and
    update-tag flags unset) creates nothing: after the first run's lookup
    and creation, the second run issues the lookup and one update addressed
    to the id of the created release. *)
Theorem release_twice_updates_what_it_created (first_retries second_retries : Z)
    (st : State W) (e : RequestError) (w2 w3 w4 w5 : W) (created : Release)
    (answer : RequestError + Release) :
  0 < first_retries -> 0 < second_retries ->
  truthy_bool (input_draft config) = false ->
  truthy_bool (input_update_tag config) = false ->
  getReleaseByTag releaser (lookup_params isTag config) (world st) = (inl e, w2) ->
  status e = Some 404 ->
  createRelease releaser (create_params isTag releaseBody config) w2 = (inr created, w3) ->
  getReleaseByTag releaser (lookup_params isTag config) w3 = (inr created, w4) ->
  updateRelease releaser (update_params isTag releaseBody config created) w4
    = (answer, w5) ->
  let first := release isTag releaseBody config releaser first_retries st in
  let second := release isTag releaseBody config releaser second_retries (final first) in
  outcome first = Return created
  /\ calls (final second)
     = (calls st ++ [GetReleaseByTag (lookup_params isTag config);
                     CreateRelease (create_params isTag releaseBody config);
                     GetReleaseByTag (lookup_params isTag config);
                     UpdateRelease (update_params isTag releaseBody config created)])%list
  /\ up_release_id (update_params isTag releaseBody config created) = id created.
Proof.
  intros Hfirst Hsecond Hdraft Htag Hmiss H404 Hcreate Hfound Hupdate first second.
  assert (Hrun1 : first
                  = (Return created,
                     after st w3 [GetReleaseByTag (lookup_params isTag config);
                                  CreateRelease (create_params isTag releaseBody config)])).
  { subst first.
    rewrite (@release_create_path _ _ _ _ _ Hfirst (find_draft_off st Hdraft) Hmiss H404).
    unfold try_catch, request at 1. cbn [world calls after]. rewrite Hcreate.
    unfold after. now rewrite <- app_assoc. }
  subst second. rewrite Hrun1. split; [reflexivity |]. split; [| reflexivity].
  unfold final, snd.
  set (st2 := after st w3 [GetReleaseByTag (lookup_params isTag config);
                           CreateRelease (create_params isTag releaseBody config)]).
  assert (Hfound' : getReleaseByTag releaser (lookup_params isTag config) (world st2)
                    = (inr created, w4)) by exact Hfound.
  rewrite (@release_update_path _ _ _ _ _ Hsecond (find_draft_off st2 Hdraft) Hfound').
  unfold update, update_tag. rewrite Htag.
  unfold bind, ret, request. subst st2. cbn [world calls after]. rewrite Hupdate.
  destruct answer; cbn [snd calls]; now rewrite <- !app_assoc.
Qed.

End ReconcilerFacts.

(** * Properties of [upload] *)

Section UploaderFacts.

Variable W : Type.
Variable basename : string -> string.
Variable getType : string -> option string.
Variable statSync_size : string -> Thrown + Z.
Variable readFileSync : string -> Thrown + list Byte.byte.
Variable new_URL : string -> Thrown + Url.
Variable fetch : UploadRequest -> W -> (Thrown + FetchResponse) * W.
Variable JSON_stringify : Json -> string.
Variable github : GitHub W.
Variable url path : string.
Variable currentAssets : list Asset.

(** The file, once loaded. *)
Variable a : ReleaseAsset.
Hypothesis loaded :
  asset basename getType statSync_size readFileSync path = inr a.

Lemma upload_unfold (config : Config) (st : State W) :
  upload basename getType statSync_size readFileSync new_URL fetch JSON_stringify
    config github url path currentAssets st
  = match find (same_name a) currentAssets with
    | Some currentAsset =>
        match input_overwrite_files config with
        | Some false => (Return JNull, st)
        | _ =>
            (request Rejected (DeleteReleaseAsset (delete_asset_params config currentAsset))
               (deleteReleaseAsset github (delete_asset_params config currentAsset)) ;;
             post_asset new_URL fetch JSON_stringify config url a) st
        end
    | None => post_asset new_URL fetch JSON_stringify config url a st
    end.
Proof.
  unfold upload, bind at 1, lift. rewrite loaded. unfold ret at 1.
  fold (same_name a).
  destruct (find (same_name a) currentAssets) as [currentAsset |]; [| reflexivity].
  destruct (input_overwrite_files config) as [[|] |]; reflexivity.
Qed.


(** The run of [post_asset] once the URL is parsed and [fetch] has
    resolved. *)
Lemma post_asset_run (config : Config) (st : State W) (endpoint : Url)
    (resp : FetchResponse) (w : W) :
  new_URL url = inr endpoint ->
  fetch (sent config a endpoint) (world st) = (inr resp, w) ->
  post_asset new_URL fetch JSON_stringify config url a st
  = (match resp_json resp with
     | inl t => Throw t
     | inr json =>
         if resp_status resp =? 201 then Return json
         else match property (Some json) "message" with
              | inl t => Throw t
              | inr message =>
                  match property (Some json) "errors" with
                  | inl t => Throw t
                  | inr errors =>
                      Throw (Error (failure_message JSON_stringify (ra_name a)
                                      (resp_status resp) message errors))
                  end
              end
     end,
     after st w [Fetch (sent config a endpoint)]).
Proof.
  intros Hurl Hfetch. unfold post_asset, bind at 1, lift at 1. rewrite Hurl.
  unfold ret at 1, bind at 1, request. fold (sent config a endpoint). rewrite Hfetch.
  unfold bind at 1, lift at 1. fold (after st w [Fetch (sent config a endpoint)]).
  destruct (resp_json resp) as [t | json]; [reflexivity |]. unfold ret at 1.
  destruct (resp_status resp =? 201); [reflexivity |]. simpl negb. cbv iota.
  unfold bind at 1, lift at 1.
  destruct (property (Some json) "message") as [t | message]; [reflexivity |].
  unfold ret at 1, bind at 1, lift at 1.
  destruct (property (Some json) "errors") as [t | errors]; reflexivity.
Qed.

(** ** Helpers on the requests of [upload] *)

Lemma post_asset_log (config : Config) (st : State W) (endpoint : Url)
    (r : Thrown + FetchResponse) (w : W) :
  new_URL url = inr endpoint ->
  fetch (sent config a endpoint) (world st) = (r, w) ->
  calls (final (post_asset new_URL fetch JSON_stringify config url a st))
    = (calls st ++ [Fetch (sent config a endpoint)])%list.
Proof.
  intros Hurl Hfetch. destruct r as [t | resp].
  - unfold post_asset, bind at 1, lift at 1. rewrite Hurl.
    unfold ret at 1, bind at 1, request. fold (sent config a endpoint).
    now rewrite Hfetch.
  - now rewrite (@post_asset_run _ _ _ _ _ Hurl Hfetch).
Qed.

Lemma post_asset_bad_url (config : Config) (st : State W) (t : Thrown) :
  new_URL url = inl t ->
  post_asset new_URL fetch JSON_stringify config url a st = (Throw t, st).
Proof. intros Hurl. unfold post_asset, bind, lift. now rewrite Hurl. Qed.

Lemma upload_replacing (config : Config) (st : State W) (current : Asset) :
  find (same_name a) currentAssets = Some current ->
  input_overwrite_files config <> Some false ->
  upload basename getType statSync_size readFileSync new_URL fetch JSON_stringify
    config github url path currentAssets st
  = (request Rejected (DeleteReleaseAsset (delete_asset_params config current))
       (deleteReleaseAsset github (delete_asset_params config current)) ;;
     post_asset new_URL fetch JSON_stringify config url a) st.
Proof.
  intros Hfind Hon. rewrite upload_unfold, Hfind.
  destruct (input_overwrite_files config) as [[|] |]; [reflexivity | congruence | reflexivity].
Qed.



Lemma find_first {A} (f : A -> bool) (l : list A) (x : A) :
  find f l = Some x ->
  exists before rest,
    l = (before ++ x :: rest)%list /\ f x = true
    /\ Forall (fun y => f y = false) before.
Proof.
  induction l as [| y l IH]; simpl; [discriminate |].
  destruct (f y) eqn:Hy.
  - intros [= ->]. exists [], l. repeat split; [exact Hy | constructor].
  - intros Hfind. destruct (IH Hfind) as (before & rest & -> & Hx & Hbefore).
    exists (y :: before), rest. repeat split; [exact Hx | now constructor].
Qed.

(** ** Claims about a name that is already attached *)


(** What the code does when an attached asset has the name of the file:
    with [overwrite_files] false the run returns null and issues no request;
    with [overwrite_files] true (the deletion accepted, the URL well formed)
    it issues exactly two requests, first a deletion, addressed to the id of
    the matching asset or to 1 when that id is 0, then the upload. *)
Lemma upload_same_name_skips_or_replaces (config : Config) (st : State W)
    (current : Asset) :
  find (same_name a) currentAssets = Some current ->
  let run := upload basename getType statSync_size readFileSync new_URL fetch
               JSON_stringify config github url path currentAssets st in
  (input_overwrite_files config = Some false -> run = (Return JNull, st))
  /\ (input_overwrite_files config = Some true ->
      forall endpoint w1 r w2,
        let deletion :=
          {| da_asset_id := if asset_id current =? 0 then 1 else asset_id current;
             da_owner := owner_of config;
             da_repo := repo_of config |} in
        deleteReleaseAsset github deletion (world st) = (inr tt, w1) ->
        new_URL url = inr endpoint ->
        fetch (sent config a endpoint) w1 = (r, w2) ->
        calls (final run)
          = (calls st ++ [DeleteReleaseAsset deletion;
                          Fetch (sent config a endpoint)])%list).
Proof.
  intros Hfind run. subst run. rewrite upload_unfold, Hfind. split.
  - intros ->. reflexivity.
  - intros -> endpoint w1 r w2 deletion Hdel Hurl Hfetch.
    unfold bind at 1, request at 1, delete_asset_params.
    fold deletion. rewrite Hdel.
    unfold post_asset, bind at 1, lift at 1. rewrite Hurl.
    unfold ret at 1, bind at 1, request at 1. fold (sent config a endpoint).
    cbn [world calls]. rewrite Hfetch. unfold final.
    destruct r as [t | resp]; cbn [snd calls]; [now rewrite <- app_assoc |].
    unfold bind at 1, lift at 1.
    destruct (resp_json resp) as [t | json]; cbn [snd calls];
      [now rewrite <- app_assoc |].
    unfold ret at 1. destruct (negb (resp_status resp =? 201));
      [| cbn [ret snd calls]; now rewrite <- app_assoc].
    unfold bind at 1, lift at 1.
    destruct (property (Some json) "message") as [t | message]; cbn [throw snd calls];
      [now rewrite <- app_assoc |].
    unfold ret at 1, bind at 1, lift at 1.
    destruct (property (Some json) "errors") as [t | errors];
      cbn [throw ret snd calls]; now rewrite <- app_assoc.
Qed.


(** ** Claims about the response *)

Lemma upload_sends (config : Config) (st st1 : State W) :
  sends_file github currentAssets config a st st1 ->
  upload basename getType statSync_size readFileSync new_URL fetch JSON_stringify
    config github url path currentAssets st
  = post_asset new_URL fetch JSON_stringify config url a st1.
Proof.
  unfold sends_file. rewrite upload_unfold.
  destruct (find (same_name a) currentAssets) as [current |]; [| now intros ->].
  intros (Hon & w1 & Hdel & ->).
  assert (Hgo : (request Rejected (DeleteReleaseAsset (delete_asset_params config current))
                   (deleteReleaseAsset github (delete_asset_params config current)) ;;
                 post_asset new_URL fetch JSON_stringify config url a) st
                = post_asset new_URL fetch JSON_stringify config url a
                    (after st w1 [DeleteReleaseAsset (delete_asset_params config current)])).
  { unfold bind at 1, request at 1. now rewrite Hdel. }
  destruct (input_overwrite_files config) as [[|] |]; [exact Hgo | congruence | exact Hgo].
Qed.


(** ** What else [upload] does *)

(** X10: when no attached asset has the name of the file, the run issues
    exactly one request, the upload, whatever [overwrite_files] is; nothing
    is deleted. *)
Theorem upload_new_name_single_request (config : Config) (st : State W)
    (endpoint : Url) (r : Thrown + FetchResponse) (w : W) :
  find (same_name a) currentAssets = None ->
  new_URL url = inr endpoint ->
  fetch (sent config a endpoint) (world st) = (r, w) ->
  calls (final (upload basename getType statSync_size readFileSync new_URL fetch
                  JSON_stringify config github url path currentAssets st))
    = (calls st ++ [Fetch (sent config a endpoint)])%list.
Proof.
  intros Hfind Hurl Hfetch. rewrite upload_unfold, Hfind.
  exact (@post_asset_log _ _ _ _ _ Hurl Hfetch).
Qed.

(** X12: when the deletion of the same-named asset is rejected, the run
    ends with that rejection and the file is not uploaded: the deletion is
    the only request. *)
Theorem upload_rejected_deletion_ends_run (config : Config) (st : State W)
    (current : Asset) (e : RequestError) (w1 : W) :
  find (same_name a) currentAssets = Some current ->
  input_overwrite_files config <> Some false ->
  deleteReleaseAsset github (delete_asset_params config current) (world st)
    = (inl e, w1) ->
  upload basename getType statSync_size readFileSync new_URL fetch JSON_stringify
    config github url path currentAssets st
  = (Throw (Rejected e),
     after st w1 [DeleteReleaseAsset (delete_asset_params config current)]).
Proof.
  intros Hfind Hon Hdel. rewrite (@upload_replacing _ _ _ Hfind Hon).
  unfold bind, request. now rewrite Hdel.
Qed.

(** X13: a URL that the [URL] constructor refuses is noticed only after the
    same-named asset has been deleted: with no such asset the run fails
    without any request; with one (and overwriting not switched off, the
    deletion accepted) the run fails after the deletion, and nothing is
    uploaded in its place. *)
Theorem upload_bad_url_after_deletion (config : Config) (st : State W) (t : Thrown) :
  new_URL url = inl t ->
  (find (same_name a) currentAssets = None ->
   upload basename getType statSync_size readFileSync new_URL fetch JSON_stringify
     config github url path currentAssets st
   = (Throw t, st))
  /\ (forall current w1,
        find (same_name a) currentAssets = Some current ->
        input_overwrite_files config <> Some false ->
        deleteReleaseAsset github (delete_asset_params config current) (world st)
          = (inr tt, w1) ->
        upload basename getType statSync_size readFileSync new_URL fetch JSON_stringify
          config github url path currentAssets st
        = (Throw t,
           after st w1 [DeleteReleaseAsset (delete_asset_params config current)])).
Proof.
  intros Hurl. split.
  - intros Hfind. rewrite upload_unfold, Hfind. exact (post_asset_bad_url _ _ Hurl).
  - intros current w1 Hfind Hon Hdel. rewrite (@upload_replacing _ _ _ Hfind Hon).
    unfold bind at 1, request. rewrite Hdel. exact (post_asset_bad_url _ _ Hurl).
Qed.

Lemma upload_log_shapes (config : Config) (st : State W) :
  exists issued : list Call,
    calls (final (upload basename getType statSync_size readFileSync new_URL fetch
                    JSON_stringify config github url path currentAssets st))
      = (calls st ++ issued)%list
    /\ (issued = []
        \/ (find (same_name a) currentAssets = None
            /\ exists endpoint,
                 new_URL url = inr endpoint
                 /\ issued = [Fetch (sent config a endpoint)])
        \/ (exists current,
              find (same_name a) currentAssets = Some current
              /\ same_name a current = true
              /\ input_overwrite_files config <> Some false
              /\ (issued = [DeleteReleaseAsset (delete_asset_params config current)]
                  \/ exists endpoint,
                       new_URL url = inr endpoint
                       /\ issued = [DeleteReleaseAsset (delete_asset_params config current);
                                    Fetch (sent config a endpoint)]))).
Proof.
  assert (Hpost : forall s : State W,
            calls (final (post_asset new_URL fetch JSON_stringify config url a s)) = calls s
            \/ exists endpoint,
                 new_URL url = inr endpoint
                 /\ calls (final (post_asset new_URL fetch JSON_stringify config url a s))
                    = (calls s ++ [Fetch (sent config a endpoint)])%list).
  { intros s. destruct (new_URL url) as [t | endpoint] eqn:Hurl.
    - left. now rewrite (post_asset_bad_url _ _ Hurl).
    - right. exists endpoint. split; [reflexivity |].
      destruct (fetch (sent config a endpoint) (world s)) as [r w] eqn:Hfetch.
      exact (@post_asset_log _ _ _ _ _ Hurl Hfetch). }
  rewrite upload_unfold.
  destruct (find (same_name a) currentAssets) as [current |] eqn:Hfind.
  - assert (Hgo : input_overwrite_files config <> Some false ->
              exists issued : list Call,
                calls (final ((request Rejected
                                 (DeleteReleaseAsset (delete_asset_params config current))
                                 (deleteReleaseAsset github
                                    (delete_asset_params config current)) ;;
                               post_asset new_URL fetch JSON_stringify config url a) st))
                  = (calls st ++ issued)%list
                /\ (issued = [DeleteReleaseAsset (delete_asset_params config current)]
                    \/ exists endpoint,
                         new_URL url = inr endpoint
                         /\ issued = [DeleteReleaseAsset (delete_asset_params config current);
                                      Fetch (sent config a endpoint)])).
    { intros _. unfold bind at 1, request.
      destruct (deleteReleaseAsset github _ (world st)) as [[e | u] w1].
      - eexists. split; [reflexivity |]. now left.
      - destruct (Hpost {| world := w1;
                           calls := calls st
                                    ++ [DeleteReleaseAsset
                                          (delete_asset_params config current)] |})
          as [Hsame | (endpoint & Hurl & Hsent)].
        + rewrite Hsame. eexists. split; [reflexivity |]. now left.
        + rewrite Hsent. simpl. rewrite <- app_assoc. eexists. split; [reflexivity |].
          right. eauto. }
    assert (Hname : same_name a current = true).
    { apply find_some in Hfind. apply Hfind. }
    destruct (input_overwrite_files config) as [[|] |] eqn:Hflag.
    + destruct Hgo as (issued & Hlog & Hshape); [discriminate |].
      exists issued. split; [exact Hlog |]. right. right. exists current.
      split; [reflexivity |]. split; [exact Hname |].
      split; [discriminate | exact Hshape].
    + exists []. simpl. rewrite app_nil_r. auto.
    + destruct Hgo as (issued & Hlog & Hshape); [discriminate |].
      exists issued. split; [exact Hlog |]. right. right. exists current.
      split; [reflexivity |]. split; [exact Hname |].
      split; [discriminate | exact Hshape].
  - destruct (Hpost st) as [Hsame | (endpoint & Hurl & Hsent)].
    + exists []. rewrite app_nil_r. auto.
    + eexists. split; [exact Hsent |]. right. left. split; [reflexivity |]. eauto.
Qed.

(** X14: for a file that loads, the requests of a run of [upload] are
    nothing; or the upload alone (no attached asset has the file's name); or
    one deletion, alone or followed by the upload (an attached asset has the
    name and [overwrite_files] is not false), the deletion being addressed
    to the id of the first attached asset with the file's name, or to asset
    1 when that id is 0.  So there are never two uploads and never a
    deletion after the upload. *)
Theorem upload_issues_only_its_requests (config : Config) (st : State W) :
  exists issued : list Call,
    calls (final (upload basename getType statSync_size readFileSync new_URL fetch
                    JSON_stringify config github url path currentAssets st))
      = (calls st ++ issued)%list
    /\ (issued = []
        \/ (find (same_name a) currentAssets = None
            /\ exists endpoint,
                 new_URL url = inr endpoint
                 /\ issued = [Fetch (sent config a endpoint)])
        \/ (exists before current rest,
              currentAssets = (before ++ current :: rest)%list
              /\ asset_name current = ra_name a
              /\ Forall (fun other => asset_name other <> ra_name a) before
              /\ input_overwrite_files config <> Some false
              /\ let deletion :=
                   {| da_asset_id := if asset_id current =? 0 then 1
                                     else asset_id current;
                      da_owner := owner_of config;
                      da_repo := repo_of config |} in
                 (issued = [DeleteReleaseAsset deletion]
                  \/ exists endpoint,
                       new_URL url = inr endpoint
                       /\ issued = [DeleteReleaseAsset deletion;
                                    Fetch (sent config a endpoint)]))).
Proof.
  destruct (upload_log_shapes config st) as (issued & Hlog & Hshape).
  exists issued. split; [exact Hlog |].
  destruct Hshape as [Hnone | [Hnew | (current & Hfind & _ & Hon & Hdel)]];
    [now left | now right; left |].
  right. right.
  destruct (find_first _ _ Hfind) as (before & rest & Hsplit & Hname & Hbefore).
  exists before, current, rest. split; [exact Hsplit |].
  split; [now apply String.eqb_eq in Hname |].
  split; [| split; [exact Hon | exact Hdel]].
  apply Forall_forall. intros other Hin.
  rewrite Forall_forall in Hbefore. specialize (Hbefore other Hin).
  now apply String.eqb_neq in Hbefore.
Qed.

(** X15: once the upload request has been answered, a body that cannot be
    decoded makes the run fail with the decoding error whatever the status,
    201 included; a body that decodes to [null] with a status other than 201
    makes it fail with a [TypeError] instead of the upload error. *)
Theorem upload_body_decoded_before_status (config : Config) (st st1 : State W)
    (endpoint : Url) (resp : FetchResponse) (w2 : W) :
  sends_file github currentAssets config a st st1 ->
  new_URL url = inr endpoint ->
  fetch (sent config a endpoint) (world st1) = (inr resp, w2) ->
  let run := upload basename getType statSync_size readFileSync new_URL fetch
               JSON_stringify config github url path currentAssets st in
  (forall t, resp_json resp = inl t -> outcome run = Throw t)
  /\ (resp_json resp = inr JNull -> resp_status resp <> 201 ->
      outcome run
      = Throw (TypeError "Cannot read properties of null (reading 'message')")).
Proof.
  intros Hsends Hurl Hfetch run. subst run.
  rewrite (@upload_sends _ _ _ Hsends), (@post_asset_run _ _ _ _ _ Hurl Hfetch).
  unfold outcome, fst. split.
  - now intros t ->.
  - intros -> Hstatus. apply Z.eqb_neq in Hstatus. now rewrite Hstatus.
Qed.

(** X17: a rejected [fetch] (no response at all) ends the run with that
    error, after the one upload request. *)
Theorem upload_rejected_fetch_ends_run (config : Config) (st st1 : State W)
    (endpoint : Url) (t : Thrown) (w2 : W) :
  sends_file github currentAssets config a st st1 ->
  new_URL url = inr endpoint ->
  fetch (sent config a endpoint) (world st1) = (inl t, w2) ->
  upload basename getType statSync_size readFileSync new_URL fetch JSON_stringify
    config github url path currentAssets st
  = (Throw t, after st1 w2 [Fetch (sent config a endpoint)]).
Proof.
  intros Hsends Hurl Hfetch. rewrite (@upload_sends _ _ _ Hsends).
  unfold post_asset, bind at 1, lift at 1. rewrite Hurl.
  unfold ret at 1, bind at 1, request. fold (sent config a endpoint).
  now rewrite Hfetch.
Qed.

(** X18: for a file that loads, once [upload] gets to send it (the URL
    parsed, [fetch] answering or rejecting), the request it issues is a POST
    to the parsed URL with the parameter [name], set to the base name of the
    path, appended to its query; the content length is the decimal file
    size, the content type is what [getType] gives for the path or
    [application/octet-stream] when it gives nothing, the authorization is
    [token] followed by the configured token, and the body is the content of
    the file. *)
Theorem upload_request_shape (config : Config) (st st1 : State W)
    (endpoint : Url) (r : Thrown + FetchResponse) (w2 : W) :
  sends_file github currentAssets config a st st1 ->
  new_URL url = inr endpoint ->
  fetch (sent config a endpoint) (world st1) = (r, w2) ->
  exists size content,
    statSync_size path = inr size
    /\ readFileSync path = inr content
    /\ calls (final (upload basename getType statSync_size readFileSync new_URL fetch
                       JSON_stringify config github url path currentAssets st))
       = (calls st1
            ++ [Fetch
                  {| rq_endpoint :=
                       {| before_query := before_query endpoint;
                          searchParams :=
                            searchParams endpoint ++ [("name", basename path)];
                          fragment := fragment endpoint |};
                     rq_content_length := show_number size;
                     rq_content_type :=
                       match getType path with
                       | Some mime =>
                           if (mime =? "")%string then "application/octet-stream"
                           else mime
                       | None => "application/octet-stream"
                       end;
                     rq_authorization := "token " ++ github_token config;
                     rq_method := "POST";
                     rq_body := content |}])%list.
Proof.
  intros Hsends Hurl Hfetch.
  rewrite (@upload_sends _ _ _ Hsends), (@post_asset_log _ _ _ _ _ Hurl Hfetch).
  pose proof loaded as Hl. unfold asset in Hl.
  destruct (statSync_size path) as [t | size]; [discriminate |].
  destruct (readFileSync path) as [t | content]; [discriminate |].
  injection Hl as <-. exists size, content. repeat split.
Qed.

End UploaderFacts.

(** ** The claims at concrete inputs *)

Module ReconcilerExamples.
Import Examples.

(** Spent retries: three rejected creations, each with a response, end in
    [Error "Too many retries."] after three attempts. *)
Example three_rejections_spend_three_retries :
  exists st',
    release isTag (releaseBody None) config
      (service (inl not_found) (fun _ => inl already_exists) NoMorePages)
      3 (start tt)
    = (Throw (Error "Too many retries."), st')
    /\ creations (calls st') = 3%nat.
Proof.
  destruct (@release_gives_up unit isTag (releaseBody None) config
              (service (inl not_found) (fun _ => inl already_exists) NoMorePages)
              (fun _ => True)) with (maxRetries := 3) (st := start tt)
    as (st' & Hrun & Hcount & _).
  - intros w Hdraft. discriminate Hdraft.
  - intros w _. exists not_found, w. repeat split.
  - intros w _. exists already_exists, w. eexists. repeat split.
  - lia.
  - exact I.
  - exists st'. split; [exact Hrun | exact Hcount].
Qed.

(** C1, at a failing input: the tag is not found and every creation attempt
    is rejected by a transport failure (a rejection without [response]).
    With [maxRetries = 3] the run makes one creation attempt, not three, and
    ends with the [TypeError] of the retry message, not with
    [Error "Too many retries."]. *)
Theorem transport_failures_do_not_spend_retries :
  let run := release isTag (releaseBody None) config
               (service (inl not_found) (fun _ => inl transport_failure) NoMorePages)
               3 (start tt) in
  outcome run = Throw (TypeError "Cannot read properties of undefined (reading 'data')")
  /\ creations (calls (final run)) = 1%nat.
Proof. vm_compute. split; reflexivity. Qed.

(** C2, at a failing input: the first creation attempt is rejected by a
    transport failure and a second attempt would succeed.  With
    [maxRetries = 3] the run does not continue as [release] with
    [maxRetries = 2] would from the state the rejection left (that run
    returns the created release): it ends with a [TypeError] right after the
    rejected attempt. *)
Theorem transport_failure_is_not_retried :
  let run := release isTag (releaseBody None) config (flaky 1 transport_failure)
               3 (start 0%nat) in
  let attempted := [GetReleaseByTag (lookup_params isTag config);
                    CreateRelease (create_params isTag (releaseBody None) config)] in
  run = (Throw (TypeError "Cannot read properties of undefined (reading 'data')"),
         after (start 0%nat) 1%nat attempted)
  /\ outcome (release isTag (releaseBody None) config (flaky 1 transport_failure)
                2 (after (start 0%nat) 1%nat attempted))
     = Return (created (create_params isTag (releaseBody None) config)).
Proof. vm_compute. split; reflexivity. Qed.

(** The same service rejecting with a response is retried. *)
Example rejection_with_response_is_retried :
  outcome (release isTag (releaseBody None) config (flaky 1 already_exists)
             3 (start 0%nat))
  = Return (created (create_params isTag (releaseBody None) config)).
Proof. vm_compute. reflexivity. Qed.

Lemma lookup_rejection_404_creates_else_propagates_witness :
  release isTag (releaseBody None) config
    (service (inl forbidden) (fun p => inr (created p)) NoMorePages) 3 (start tt)
  = (Throw (Rejected forbidden),
     after (start tt) tt [GetReleaseByTag (lookup_params isTag config)])
  /\ release isTag (releaseBody None) config
       (service (inl not_found) (fun p => inr (created p)) NoMorePages) 3 (start tt)
     = (Return (created (create_params isTag (releaseBody None) config)),
        after (start tt) tt
          [GetReleaseByTag (lookup_params isTag config);
           CreateRelease (create_params isTag (releaseBody None) config)]).
Proof.
  split.
  - refine (proj2 (@lookup_rejection_404_creates_else_propagates unit isTag
                     (releaseBody None) config
                     (service (inl forbidden) (fun p => inr (created p)) NoMorePages)
                     3 (start tt) (start tt) forbidden tt _ _ _) _).
    + lia.
    + reflexivity.
    + reflexivity.
    + discriminate.
  - refine (proj2 (proj1 (@lookup_rejection_404_creates_else_propagates unit isTag
                     (releaseBody None) config
                     (service (inl not_found) (fun p => inr (created p)) NoMorePages)
                     3 (start tt) (start tt) not_found tt _ _ _) _) _ tt _).
    + lia.
    + reflexivity.
    + reflexivity.
    + reflexivity.
    + reflexivity.
Defined.

Lemma update_body_merged_witness :
  up_body (update_params isTag (releaseBody (Some "B"))
             (with_append_body (Some true) config) (published "v1.0" (Some "A")))
  = Some ("A" ++ String "010" "" ++ "B").
Proof.
  refine (@update_body_merged unit isTag (releaseBody (Some "B"))
            (with_append_body (Some true) config)
            (service (inr (published "v1.0" (Some "A"))) (fun p => inr (created p))
               NoMorePages)
            3 tt (start tt) (published "v1.0" (Some "A")) tt _ _ _ _ _).
  - lia.
  - reflexivity.
  - reflexivity.
  - vm_compute. right. left. reflexivity.
Defined.

Lemma update_flags_tristate_witness :
  let p := update_params isTag (releaseBody None)
             (with_draft (Some false) config) (drafted "v1.0") in
  up_draft p = Some false /\ up_prerelease p = Some true.
Proof.
  refine (@update_flags_tristate unit isTag (releaseBody None)
            (with_draft (Some false) config)
            (service (inr (drafted "v1.0")) (fun p => inr (created p)) NoMorePages)
            3 tt (start tt) (drafted "v1.0") tt _ _ _ _ _).
  - lia.
  - reflexivity.
  - reflexivity.
  - vm_compute. right. left. reflexivity.
Defined.

Lemma update_tag_request_order_witness :
  let existing := published "v1.0" None in
  let moving := with_update_tag (Some true) config in
  calls (final (release isTag (releaseBody None) moving
                  (service (inr existing) (fun p => inr (created p)) NoMorePages)
                  3 (start tt)))
  = [GetReleaseByTag (lookup_params isTag moving);
     DeleteRef {| dr_owner := Some "octo"; dr_repo := Some "app";
                  dr_ref := "tags/v1.0" |};
     CreateRef {| cr_owner := Some "octo"; cr_repo := Some "app";
                  cr_ref := "refs/tags/v1.0"; cr_sha := "abc123" |};
     Sleep 2000;
     UpdateRelease (update_params isTag (releaseBody None) moving existing)]
  /\ calls (final (release isTag (releaseBody None) config
                     (service (inr existing) (fun p => inr (created p)) NoMorePages)
                     3 (start tt)))
     = [GetReleaseByTag (lookup_params isTag config);
        UpdateRelease (update_params isTag (releaseBody None) config existing)].
Proof.
  split.
  - refine (proj1 (@update_tag_request_order unit isTag (releaseBody None)
                     (with_update_tag (Some true) config)
                     (service (inr (published "v1.0" None)) (fun p => inr (created p))
                        NoMorePages)
                     3 (start tt) (start tt) (published "v1.0" None) tt _ _ _)
                  _ tt tt _ _).
    + lia.
    + reflexivity.
    + reflexivity.
    + reflexivity.
    + reflexivity.
    + reflexivity.
  - refine (proj2 (@update_tag_request_order unit isTag (releaseBody None) config
                     (service (inr (published "v1.0" None)) (fun p => inr (created p))
                        NoMorePages)
                     3 (start tt) (start tt) (published "v1.0" None) tt _ _ _) _).
    + lia.
    + reflexivity.
    + reflexivity.
    + reflexivity.
Defined.

Lemma draft_scan_first_match_else_lookup_witness :
  let drafting := with_draft (Some true) config in
  let one_page := Page [published "v0.8" None; published "v0.9" None] NoMorePages in
  let existing := published "v1.0" None in
  let merged := update_params isTag (releaseBody None) drafting existing in
  release isTag (releaseBody None) drafting
    (service (inl not_found) (fun p => inr (created p)) three_pages) 3 (start tt)
  = (Return (published "v1.0" (Some "first")),
     after (start tt) tt [ListPage (list_params drafting); ListPage (list_params drafting)])
  /\ release isTag (releaseBody None) drafting
       (service (inr existing) (fun p => inr (created p)) one_page) 3 (start tt)
     = (Return (updated merged),
        after (start tt) tt
          [ListPage (list_params drafting);
           GetReleaseByTag (lookup_params isTag drafting);
           UpdateRelease merged])
  /\ exists rest : list Call,
       calls (final (release isTag (releaseBody None) drafting
                       (service (inl not_found) (fun p => inr (created p)) one_page)
                       3 (start tt)))
       = ([ListPage (list_params drafting)]
            ++ GetReleaseByTag (lookup_params isTag drafting)
            :: CreateRelease (create_params isTag (releaseBody None) drafting)
            :: rest)%list.
Proof.
  split; [| split].
  - refine (proj1 (@draft_scan_first_match_else_lookup unit isTag (releaseBody None)
                     (with_draft (Some true) config)
                     (service (inl not_found) (fun p => inr (created p)) three_pages)
                     3 (start tt) _ _) (published "v1.0" (Some "first")) _).
    + lia.
    + reflexivity.
    + reflexivity.
  - refine (proj1 (proj2 (proj2 (proj2
              (@draft_scan_first_match_else_lookup unit isTag (releaseBody None)
                 (with_draft (Some true) config)
                 (service (inr (published "v1.0" None)) (fun p => inr (created p))
                    (Page [published "v0.8" None; published "v0.9" None] NoMorePages))
                 3 (start tt) _ _) _ _))
              (published "v1.0" None) tt _) _
              (inr (updated (update_params isTag (releaseBody None)
                               (with_draft (Some true) config)
                               (published "v1.0" None))))
              tt _).
    + lia.
    + reflexivity.
    + reflexivity.
    + reflexivity.
    + reflexivity.
    + reflexivity.
    + reflexivity.
  - refine (proj1 (proj2 (proj2
              (@draft_scan_first_match_else_lookup unit isTag (releaseBody None)
                 (with_draft (Some true) config)
                 (service (inl not_found) (fun p => inr (created p))
                    (Page [published "v0.8" None; published "v0.9" None] NoMorePages))
                 3 (start tt) _ _) _ _))
              not_found tt _ _).
    + lia.
    + reflexivity.
    + reflexivity.
    + reflexivity.
    + reflexivity.
    + reflexivity.
Defined.

(** C5, as stated, fails: the draft flag is set, no page of the list
    carries the tag, and yet the run does not reach the create path: the
    lookup by tag finds a release, which is updated; no creation request is
    issued. *)
Lemma draft_scan_miss_may_update :
  let drafting := with_draft (Some true) config in
  let pages := Page [published "v0.8" None; published "v0.9" None] NoMorePages in
  let existing := published "v1.0" None in
  let run := release isTag (releaseBody None) drafting
               (service (inr existing) (fun p => inr (created p)) pages)
               3 (start tt) in
  truthy_bool (input_draft drafting) = true
  /\ first_match (tag_of isTag drafting) pages = None
  /\ failure pages = None
  /\ calls (final run)
     = [ListPage (list_params drafting);
        GetReleaseByTag (lookup_params isTag drafting);
        UpdateRelease (update_params isTag (releaseBody None) drafting existing)]
  /\ creations (calls (final run)) = 0%nat.
Proof. vm_compute. repeat split; reflexivity. Qed.

End ReconcilerExamples.

Module UploaderExamples.
Import Examples.

Lemma upload_same_name_skips_or_replaces_witness :
  let attached := [{| asset_id := 41; asset_name := "notes.txt" |};
                   {| asset_id := 42; asset_name := "app.zip" |}] in
  run_upload asset_created (with_overwrite_files (Some false) config) attached
    = (Return JNull, start tt)
  /\ calls (final (run_upload asset_created
                     (with_overwrite_files (Some true) config) attached))
     = [DeleteReleaseAsset {| da_asset_id := 42; da_owner := Some "octo";
                              da_repo := Some "app" |};
        Fetch (sent (with_overwrite_files (Some true) config) app_zip endpoint)].
Proof.
  split.
  - refine (proj1 (@upload_same_name_skips_or_replaces unit basename getType
                     statSync_size readFileSync new_URL (fetch asset_created)
                     JSON_stringify github upload_url "dist/app.zip"
                     [{| asset_id := 41; asset_name := "notes.txt" |};
                      {| asset_id := 42; asset_name := "app.zip" |}]
                     app_zip _ (with_overwrite_files (Some false) config) (start tt)
                     {| asset_id := 42; asset_name := "app.zip" |} _) _).
    + reflexivity.
    + reflexivity.
    + reflexivity.
  - refine (proj2 (@upload_same_name_skips_or_replaces unit basename getType
                     statSync_size readFileSync new_URL (fetch asset_created)
                     JSON_stringify github upload_url "dist/app.zip"
                     [{| asset_id := 41; asset_name := "notes.txt" |};
                      {| asset_id := 42; asset_name := "app.zip" |}]
                     app_zip _ (with_overwrite_files (Some true) config) (start tt)
                     {| asset_id := 42; asset_name := "app.zip" |} _)
                  _ endpoint tt (inr asset_created) tt _ _ _).
    + reflexivity.
    + reflexivity.
    + reflexivity.
    + reflexivity.
    + reflexivity.
    + reflexivity.
Defined.

(** C8, at a failing input: the attached asset with the name of the file
    has id 0 and [overwrite_files] is true.  The code finds that asset by
    name and then asks for the deletion of asset 1, not of the asset it
    found, before it uploads. *)
Lemma upload_deletes_asset_1_for_id_0 :
  let attached := [{| asset_id := 0; asset_name := "app.zip" |}] in
  find (same_name app_zip) attached = Some {| asset_id := 0; asset_name := "app.zip" |}
  /\ calls (final (run_upload asset_created
                     (with_overwrite_files (Some true) config) attached))
     = [DeleteReleaseAsset {| da_asset_id := 1; da_owner := Some "octo";
                              da_repo := Some "app" |};
        Fetch (sent (with_overwrite_files (Some true) config) app_zip endpoint)].
Proof. vm_compute. split; reflexivity. Qed.



(** With [overwrite_files] undefined the attached asset is deleted and the
    file sent again. *)
Example unset_overwrite_deletes_then_uploads :
  calls (final (run_upload asset_created config
                  [{| asset_id := 42; asset_name := "app.zip" |}]))
  = [DeleteReleaseAsset {| da_asset_id := 42; da_owner := Some "octo";
                           da_repo := Some "app" |};
     Fetch (sent config app_zip endpoint)].
Proof. vm_compute. reflexivity. Qed.

End UploaderExamples.

(** * A file that cannot be read *)

Section UploaderLoadFacts.

Variable W : Type.
Variable basename : string -> string.
Variable getType : string -> option string.
Variable statSync_size : string -> Thrown + Z.
Variable readFileSync : string -> Thrown + list Byte.byte.
Variable new_URL : string -> Thrown + Url.
Variable fetch : UploadRequest -> W -> (Thrown + FetchResponse) * W.
Variable JSON_stringify : Json -> string.

(** X11: when the file cannot be inspected or read, [upload] fails with the
    file-system error before contacting the service: no request is issued,
    not even the deletion of a same-named asset. *)
Theorem upload_unreadable_file_contacts_nobody (config : Config) (github : GitHub W)
    (url path : string) (currentAssets : list Asset) (st : State W) (t : Thrown) :
  statSync_size path = inl t
  \/ (exists size, statSync_size path = inr size) /\ readFileSync path = inl t ->
  upload basename getType statSync_size readFileSync new_URL fetch JSON_stringify
    config github url path currentAssets st
  = (Throw t, st).
Proof.
  intros [Hstat | [[size Hstat] Hread]]; unfold upload, bind, lift, asset.
  - now rewrite Hstat.
  - now rewrite Hstat, Hread.
Qed.

End UploaderLoadFacts.

(** * The further properties at concrete inputs *)

Module ReconcilerChecks.
Import Examples.

Lemma release_without_retries_contacts_nobody_witness :
  release isTag (releaseBody None) config
    (service (inl not_found) (fun p => inr (created p)) NoMorePages) (-1) (start tt)
  = (Throw (Error "Too many retries."), start tt).
Proof.
  refine (@release_without_retries_contacts_nobody unit isTag (releaseBody None) config
            (service (inl not_found) (fun p => inr (created p)) NoMorePages)
            (-1) (start tt) _).
  lia.
Defined.

Lemma release_succeeds_after_rejections_witness :
  exists created st',
    release isTag (releaseBody None) config (flaky 2 already_exists) 3 (start 0%nat)
      = (Return created, st')
    /\ creations (calls st') = 3%nat.
Proof.
  refine (@release_succeeds_after_rejections nat isTag (releaseBody None) config
            (flaky 2 already_exists) (fun k w => (w + k = 2)%nat)
            _ _ _ _ 2%nat 3 (start 0%nat) _ _).
  - intros k w Hdraft. discriminate Hdraft.
  - intros k w HI. exists not_found, w. repeat split. exact HI.
  - intros k w HI. exists already_exists, (S w). eexists. simpl.
    destruct (Nat.ltb_spec w 2) as [Hlt | Hge]; [| lia].
    repeat split. lia.
  - intros w HI. eexists. exists w. simpl.
    destruct (Nat.ltb_spec w 2) as [Hlt | Hge]; [lia | reflexivity].
  - lia.
  - reflexivity.
Defined.

Lemma release_update_answer_is_result_witness :
  let existing := published "v1.0" None in
  release isTag (releaseBody None) config
    (scripted existing (inl forbidden) (inr tt) (inr tt)) 3 (start tt)
  = (Throw (Rejected forbidden),
     after (start tt) tt
       [GetReleaseByTag (lookup_params isTag config);
        UpdateRelease (update_params isTag (releaseBody None) config existing)]).
Proof.
  refine (@release_update_answer_is_result unit isTag (releaseBody None) config
            (scripted (published "v1.0" None) (inl forbidden) (inr tt) (inr tt))
            3 (start tt) (start tt) (published "v1.0" None) tt tt (inl forbidden)
            _ _ _ _ _).
  - lia.
  - reflexivity.
  - reflexivity.
  - reflexivity.
  - reflexivity.
Defined.

Lemma release_ref_rejection_ends_run_witness :
  let existing := published "v1.0" None in
  let moving := with_update_tag (Some true) config in
  release isTag (releaseBody None) moving
    (scripted existing (inr existing) (inl forbidden) (inr tt)) 3 (start tt)
  = (Throw (Rejected forbidden),
     after (start tt) tt [GetReleaseByTag (lookup_params isTag moving);
                          DeleteRef (delete_ref_params moving existing)])
  /\ release isTag (releaseBody None) moving
       (scripted existing (inr existing) (inr tt) (inl forbidden)) 3 (start tt)
     = (Throw (Rejected forbidden),
        after (start tt) tt [GetReleaseByTag (lookup_params isTag moving);
                             DeleteRef (delete_ref_params moving existing);
                             CreateRef (create_ref_params moving existing)]).
Proof.
  split.
  - refine (proj1 (@release_ref_rejection_ends_run unit isTag (releaseBody None)
                     (with_update_tag (Some true) config)
                     (scripted (published "v1.0" None) (inr (published "v1.0" None))
                        (inl forbidden) (inr tt))
                     3 (start tt) (start tt) (published "v1.0" None) tt _ _ _ _)
                  forbidden tt _).
    + lia.
    + reflexivity.
    + reflexivity.
    + reflexivity.
    + reflexivity.
  - refine (proj2 (@release_ref_rejection_ends_run unit isTag (releaseBody None)
                     (with_update_tag (Some true) config)
                     (scripted (published "v1.0" None) (inr (published "v1.0" None))
                        (inr tt) (inl forbidden))
                     3 (start tt) (start tt) (published "v1.0" None) tt _ _ _ _)
                  tt forbidden tt _ _).
    + lia.
    + reflexivity.
    + reflexivity.
    + reflexivity.
    + reflexivity.
    + reflexivity.
Defined.

Lemma release_page_rejection_ends_run_witness :
  let drafting := with_draft (Some true) config in
  release isTag (releaseBody None) drafting
    (service (inl not_found) (fun p => inr (created p)) broken_pages) 3 (start tt)
  = (Throw (Rejected forbidden),
     after (start tt) tt [ListPage (list_params drafting); ListPage (list_params drafting)]).
Proof.
  refine (@release_page_rejection_ends_run unit isTag (releaseBody None)
            (with_draft (Some true) config)
            (service (inl not_found) (fun p => inr (created p)) broken_pages)
            3 (start tt) forbidden _ _ _ _).
  - lia.
  - reflexivity.
  - reflexivity.
  - reflexivity.
Defined.

Lemma update_identity_name_commit_witness :
  let named := with_name_and_commit (Some "") (Some "release-branch") config in
  let p := update_params isTag (releaseBody None) named (published "v1.0" None) in
  up_release_id p = 7
  /\ up_tag_name p = "v1.0"
  /\ up_name p = "v1.0"
  /\ up_target_commitish p = "release-branch"
  /\ up_discussion_category_name p = None
  /\ up_generate_release_notes p = None.
Proof.
  refine (@update_identity_name_commit unit isTag (releaseBody None)
            (with_name_and_commit (Some "") (Some "release-branch") config)
            (service (inr (published "v1.0" None)) (fun p => inr (created p)) NoMorePages)
            3 tt (start tt) (published "v1.0" None) tt _ _ _ _ _).
  - lia.
  - reflexivity.
  - reflexivity.
  - vm_compute. right. left. reflexivity.
Defined.

Lemma tag_resolution_witness : tag_of isTag config = "v1.0".
Proof.
  refine (proj1 (proj2 (@tag_resolution isTag config) _) "v1.0" _ _); reflexivity.
Defined.


Lemma creation_arguments_witness :
  let p := create_params isTag (releaseBody (Some "notes")) config in
  cp_tag_name p = "v1.0"
  /\ cp_name p = "v1.0"
  /\ cp_body p = Some "notes"
  /\ cp_draft p = None
  /\ cp_prerelease p = None
  /\ cp_target_commitish p = None
  /\ cp_discussion_category_name p = None
  /\ cp_generate_release_notes p = None.
Proof.
  refine (@creation_arguments nat isTag (releaseBody (Some "notes")) config
            (flaky 1 already_exists) 3 0%nat _ _).
  vm_compute. right. right. right. left. reflexivity.
Defined.

Lemma release_twice_updates_what_it_created_witness :
  let made := created (create_params isTag (releaseBody None) config) in
  let first := release isTag (releaseBody None) config remembering 3 (start None) in
  let second := release isTag (releaseBody None) config remembering 3 (final first) in
  outcome first = Return made
  /\ calls (final second)
     = [GetReleaseByTag (lookup_params isTag config);
        CreateRelease (create_params isTag (releaseBody None) config);
        GetReleaseByTag (lookup_params isTag config);
        UpdateRelease (update_params isTag (releaseBody None) config made)]
  /\ up_release_id (update_params isTag (releaseBody None) config made) = 8.
Proof.
  refine (@release_twice_updates_what_it_created (option Release) isTag
            (releaseBody None) config remembering 3 3 (start None) not_found
            None
            (Some (created (create_params isTag (releaseBody None) config)))
            (Some (created (create_params isTag (releaseBody None) config)))
            (Some (updated (update_params isTag (releaseBody None) config
                              (created (create_params isTag (releaseBody None) config)))))
            (created (create_params isTag (releaseBody None) config))
            (inr (updated (update_params isTag (releaseBody None) config
                             (created (create_params isTag (releaseBody None) config)))))
            _ _ _ _ _ _ _ _ _).
  - lia.
  - lia.
  - reflexivity.
  - reflexivity.
  - reflexivity.
  - reflexivity.
  - reflexivity.
  - reflexivity.
  - reflexivity.
Defined.

End ReconcilerChecks.

Module UploaderChecks.
Import Examples.

Lemma upload_new_name_single_request_witness :
  calls (final (run_upload asset_created config
                  [{| asset_id := 41; asset_name := "notes.txt" |}]))
  = [Fetch (sent config app_zip endpoint)].
Proof.
  refine (@upload_new_name_single_request unit basename getType statSync_size
            readFileSync new_URL (fetch asset_created) JSON_stringify github
            upload_url "dist/app.zip" [{| asset_id := 41; asset_name := "notes.txt" |}]
            app_zip _ config (start tt) endpoint (inr asset_created) tt _ _ _).
  - reflexivity.
  - reflexivity.
  - reflexivity.
  - reflexivity.
Defined.

Lemma upload_unreadable_file_contacts_nobody_witness :
  upload basename getType statSync_size readFileSync new_URL (fetch asset_created)
    JSON_stringify config github upload_url "dist/missing.zip" attached (start tt)
  = (Throw (SystemError "ENOENT: no such file or directory"), start tt).
Proof.
  refine (@upload_unreadable_file_contacts_nobody unit basename getType statSync_size
            readFileSync new_URL (fetch asset_created) JSON_stringify config github
            upload_url "dist/missing.zip" attached (start tt)
            (SystemError "ENOENT: no such file or directory") _).
  left. reflexivity.
Defined.

Lemma upload_rejected_deletion_ends_run_witness :
  upload basename getType statSync_size readFileSync new_URL (fetch asset_created)
    JSON_stringify config github_refusing upload_url "dist/app.zip" attached (start tt)
  = (Throw (Rejected forbidden),
     after (start tt) tt
       [DeleteReleaseAsset {| da_asset_id := 42; da_owner := Some "octo";
                              da_repo := Some "app" |}]).
Proof.
  refine (@upload_rejected_deletion_ends_run unit basename getType statSync_size
            readFileSync new_URL (fetch asset_created) JSON_stringify github_refusing
            upload_url "dist/app.zip" attached app_zip _ config (start tt)
            {| asset_id := 42; asset_name := "app.zip" |} forbidden tt _ _ _).
  - reflexivity.
  - reflexivity.
  - discriminate.
  - reflexivity.
Defined.

Lemma upload_bad_url_after_deletion_witness :
  upload basename getType statSync_size readFileSync new_URL (fetch asset_created)
    JSON_stringify config github "uploads.example/7/assets" "dist/app.zip" attached
    (start tt)
  = (Throw (TypeError "Invalid URL"),
     after (start tt) tt
       [DeleteReleaseAsset {| da_asset_id := 42; da_owner := Some "octo";
                              da_repo := Some "app" |}]).
Proof.
  refine (proj2 (@upload_bad_url_after_deletion unit basename getType statSync_size
                   readFileSync new_URL (fetch asset_created) JSON_stringify github
                   "uploads.example/7/assets" "dist/app.zip" attached app_zip _
                   config (start tt) (TypeError "Invalid URL") _)
                {| asset_id := 42; asset_name := "app.zip" |} tt _ _ _).
  - reflexivity.
  - reflexivity.
  - reflexivity.
  - discriminate.
  - reflexivity.
Defined.

Lemma upload_issues_only_its_requests_witness :
  exists issued : list Call,
    calls (final (run_upload asset_created config attached)) = issued
    /\ issued
       = [DeleteReleaseAsset {| da_asset_id := 42; da_owner := Some "octo";
                                da_repo := Some "app" |};
          Fetch (sent config app_zip endpoint)].
Proof.
  destruct (@upload_issues_only_its_requests unit basename getType statSync_size
              readFileSync new_URL (fetch asset_created) JSON_stringify github
              upload_url "dist/app.zip" attached app_zip eq_refl config (start tt))
    as (issued & Hlog & Hshape).
  exists issued. split; [exact Hlog |].
  destruct Hshape
    as [-> | [(Hnone & _)
             | (before & c & rest & _ & _ & _ & _ & [-> | (e & Hurl & ->)])]].
  - discriminate Hlog.
  - discriminate Hnone.
  - discriminate Hlog.
  - injection Hurl as <-. symmetry. exact Hlog.
Defined.

Lemma upload_body_decoded_before_status_witness :
  outcome (run_upload asset_garbled config [])
    = Throw (SystemError "Unexpected token < in JSON at position 0")
  /\ outcome (run_upload asset_null config [])
     = Throw (TypeError "Cannot read properties of null (reading 'message')").
Proof.
  split.
  - refine (proj1 (@upload_body_decoded_before_status unit basename getType
                     statSync_size readFileSync new_URL (fetch asset_garbled)
                     JSON_stringify github upload_url "dist/app.zip" [] app_zip _
                     config (start tt) (start tt) endpoint asset_garbled tt _ _ _)
                  _ _).
    + reflexivity.
    + reflexivity.
    + reflexivity.
    + reflexivity.
    + reflexivity.
  - refine (proj2 (@upload_body_decoded_before_status unit basename getType
                     statSync_size readFileSync new_URL (fetch asset_null)
                     JSON_stringify github upload_url "dist/app.zip" [] app_zip _
                     config (start tt) (start tt) endpoint asset_null tt _ _ _)
                  _ _).
    + reflexivity.
    + reflexivity.
    + reflexivity.
    + reflexivity.
    + reflexivity.
    + discriminate.
Defined.

Lemma upload_rejected_fetch_ends_run_witness :
  upload basename getType statSync_size readFileSync new_URL fetch_down
    JSON_stringify config github upload_url "dist/app.zip" [] (start tt)
  = (Throw (SystemError "ECONNRESET"),
     after (start tt) tt [Fetch (sent config app_zip endpoint)]).
Proof.
  refine (@upload_rejected_fetch_ends_run unit basename getType statSync_size
            readFileSync new_URL fetch_down JSON_stringify github upload_url
            "dist/app.zip" [] app_zip _ config (start tt) (start tt) endpoint
            (SystemError "ECONNRESET") tt _ _ _).
  - reflexivity.
  - reflexivity.
  - reflexivity.
  - reflexivity.
Defined.

Lemma upload_request_shape_witness :
  exists size content,
    statSync_size "dist/app.zip" = inr size
    /\ readFileSync "dist/app.zip" = inr content
    /\ calls (final (run_upload asset_created config attached))
       = [DeleteReleaseAsset {| da_asset_id := 42; da_owner := Some "octo";
                                da_repo := Some "app" |};
          Fetch {| rq_endpoint :=
                     {| before_query := upload_url;
                        searchParams := [("name", "app.zip")];
                        fragment := "" |};
                   rq_content_length := show_number size;
                   rq_content_type := "application/zip";
                   rq_authorization := "token secret";
                   rq_method := "POST";
                   rq_body := content |}].
Proof.
  refine (@upload_request_shape unit basename getType statSync_size readFileSync
            new_URL (fetch asset_created) JSON_stringify github upload_url
            "dist/app.zip" attached app_zip _ config (start tt)
            (after (start tt) tt
               [DeleteReleaseAsset {| da_asset_id := 42; da_owner := Some "octo";
                                      da_repo := Some "app" |}])
            endpoint (inr asset_created) tt _ _ _).
  - reflexivity.
  - split; [discriminate |]. exists tt. split; reflexivity.
  - reflexivity.
  - reflexivity.
Defined.

End UploaderChecks.
